(** * LuxList AI listing generator: a model of [src/App.tsx] and its properties

    The React component [App] is modelled as a state record (one field per
    [useState] cell), one function per handler, and a [dispatch] function that
    plays the rendered page: a click reaches its handler only when the control
    is rendered and not disabled.  The two [async] handlers are cut at their
    single [await]: the part before it runs on the click and leaves a call in
    flight, the part after it runs when the endpoint settles that call. *)

From Stdlib Require Import NArith List String Ascii Bool Lia.
From stdpp Require Import gmap list.
Import ListNotations.

Local Open Scope N_scope.

(** ** JavaScript strings

    A JavaScript string is a sequence of UTF-16 code units; [s.length] counts
    code units.  Literals of the source are written as Rocq strings (UTF-8
    bytes) and decoded by [js]. *)

Abbreviation jsstring := (list N).

(** Code units of one code point: a surrogate pair above the basic plane. *)
Definition utf16_units (cp : N) : jsstring :=
  if cp <? 65536 then [cp]
  else [55296 + (cp - 65536) / 1024; 56320 + (cp - 65536) mod 1024].

(** Low six bits of a UTF-8 continuation byte. *)
Definition cont (b : N) : N := b mod 64.

Fixpoint utf8_decode (fuel : nat) (bs : list N) : jsstring :=
  match fuel with
  | O => []
  | S fuel' =>
    match bs with
    | [] => []
    | b :: rest =>
      if b <? 128 then b :: utf8_decode fuel' rest
      else if b <? 224 then
        match rest with
        | b1 :: rest' =>
          utf16_units ((b mod 32) * 64 + cont b1) ++ utf8_decode fuel' rest'
        | _ => []
        end
      else if b <? 240 then
        match rest with
        | b1 :: b2 :: rest' =>
          utf16_units ((b mod 16) * 4096 + cont b1 * 64 + cont b2)
            ++ utf8_decode fuel' rest'
        | _ => []
        end
      else
        match rest with
        | b1 :: b2 :: b3 :: rest' =>
          utf16_units ((b mod 8) * 262144 + cont b1 * 4096 + cont b2 * 64 + cont b3)
            ++ utf8_decode fuel' rest'
        | _ => []
        end
    end
  end.

Definition js (s : string) : jsstring :=
  let bs := List.map N_of_ascii (list_ascii_of_string s) in
  utf8_decode (List.length bs) bs.

(** The double quote, which the literals below splice in. *)
Definition dq : jsstring := [34].

(** The line feed of a template literal. *)
Definition nl : jsstring := [10].

(** [lines.join("\n")]. *)
Fixpoint join_lines (ls : list jsstring) : jsstring :=
  match ls with
  | [] => []
  | [l] => l
  | l :: rest => l ++ nl ++ join_lines rest
  end.

(** [!!s] for a string: only the empty string is falsy. *)
Definition truthy_string (s : jsstring) : bool :=
  match s with [] => false | _ => true end.

(** [!!s] for [s : string | null | undefined]. *)
Definition truthy_opt (s : option jsstring) : bool :=
  match s with Some (_ :: _) => true | _ => false end.

(** [s || d] for [s : string | undefined]. *)
Definition or_default (s : option jsstring) (d : jsstring) : jsstring :=
  match s with Some (c :: r) => c :: r | _ => d end.

(** [s.startsWith(p)]. *)
Fixpoint startsWith (s p : jsstring) : bool :=
  match p, s with
  | [], _ => true
  | _ :: _, [] => false
  | a :: p', b :: s' => (a =? b) && startsWith s' p'
  end.

(** [s.includes(p)]. *)
Fixpoint includes (s p : jsstring) : bool :=
  startsWith s p ||
  match s with
  | [] => false
  | _ :: s' => includes s' p
  end.

(** White space and line terminators, the code units [trim] strips. *)
Definition is_space (c : N) : bool :=
  ((9 <=? c) && (c <=? 13)) || (c =? 32) || (c =? 160) || (c =? 5760)
  || ((8192 <=? c) && (c <=? 8202)) || (c =? 8232) || (c =? 8233)
  || (c =? 8239) || (c =? 8287) || (c =? 12288) || (c =? 65279).

Fixpoint trimStart (s : jsstring) : jsstring :=
  match s with
  | c :: s' => if is_space c then trimStart s' else s
  | [] => []
  end.

(** [s.trim()]. *)
Definition trim (s : jsstring) : jsstring :=
  rev (trimStart (rev (trimStart s))).

(** ** JSON values and objects *)

(** A parsed JSON value as the program observes it: a string, or any other
    value (null, a boolean, a number, an array, an object), of which the
    program only tests the truthiness ([!v]) and takes the text ([`${v}`]). *)
Inductive JValue :=
| JString (s : jsstring)
| JOther (truthy : bool) (text : jsstring).

(** [!!v]. *)
Definition truthy (v : JValue) : bool :=
  match v with
  | JString s => truthy_string s
  | JOther b _ => b
  end.

(** [`${v}`]. *)
Definition text_of (v : JValue) : jsstring :=
  match v with
  | JString s => s
  | JOther _ t => t
  end.

(** [!!o[k]]: a missing property reads as the falsy [undefined]. *)
Definition truthy_prop (v : option JValue) : bool :=
  match v with Some x => truthy x | None => false end.

(** A JSON object: its properties by key.  [o !! k] is [o[k]] ([None] for
    [undefined]) and [<[k:=v]> o] is [{...o, [k]: v}]. *)
Abbreviation JObject := (gmap jsstring JValue).

(** ** Types of the component *)

(** [ListingFormState]: the form as the inputs hold it.  The enum fields are
    strings here; [ListingSchema] is what restricts them. *)
Record ListingFormState := {
  propertyType : jsstring;
  address : option jsstring;
  price : option jsstring;
  beds : option jsstring;
  baths : option jsstring;
  sqft : option jsstring;
  lotSize : option jsstring;
  yearBuilt : option jsstring;
  parking : option jsstring;
  neighborhood : option jsstring;
  highlights : jsstring;
  tone : jsstring;
  length_ : jsstring;   (* the field [length] *)
  language : jsstring
}.

(** [keyof ListingOutputs]. *)
Inductive OutputKey := heading | mls | zillow | social | email | tiktok.

Definition key_name (k : OutputKey) : jsstring :=
  match k with
  | heading => js "heading"
  | mls => js "mls"
  | zillow => js "zillow"
  | social => js "social"
  | email => js "email"
  | tiktok => js "tiktok"
  end.

(** [ListingOutputs] is a [JObject]: [JSON.parse(...) as ListingOutputs]
    checks nothing, so any of the six keys can be missing. *)
Abbreviation ListingOutputs := JObject.

Record HistoryItem := {
  item_id : jsstring;
  item_createdAt : jsstring;
  item_form : ListingFormState;
  item_outputs : ListingOutputs;
  item_favorite : bool
}.

Definition toneMap : list (jsstring * jsstring) := [
  (js "standard", js "professional, neutral real estate tone");
  (js "luxury", js "high-end, premium, aspirational luxury tone");
  (js "investor", js "ROI-focused, cash-flow oriented, investor analysis style");
  (js "casual", js "friendly, approachable, conversational tone");
  (js "hype", js "energetic, modern, attention-grabbing tone");
  (js "simple", js "easy-to-read, clear, simple tone")
].

Definition lengthMap : list (jsstring * jsstring) := [
  (js "short", js "40–70 words");
  (js "medium", js "120–180 words");
  (js "long", js "220–300 words")
].

(** [map[key]] of a [Record<..., string>]. *)
Fixpoint record_get (m : list (jsstring * jsstring)) (key : jsstring)
  : option jsstring :=
  match m with
  | [] => None
  | (k, v) :: rest => if decide (k = key) then Some v else record_get rest key
  end.

Definition HISTORY_LIMIT : nat := 50.

(** ** Validation: [ListingSchema] *)

Definition tone_values : list jsstring :=
  [js "standard"; js "luxury"; js "investor"; js "casual"; js "hype"; js "simple"].

Definition length_values : list jsstring := [js "short"; js "medium"; js "long"].

Definition language_values : list jsstring := [js "en"; js "es"].

(** What the schema asks of a form: [z.string().min(n)] compares [s.length],
    [z.enum] asks for one of the listed strings, and the optional strings
    are free. *)
Definition schema_ok (f : ListingFormState) : bool :=
  (1 <=? List.length (propertyType f))%nat
  && (3 <=? List.length (highlights f))%nat
  && bool_decide (tone f ∈ tone_values)
  && bool_decide (length_ f ∈ length_values)
  && bool_decide (language f ∈ language_values).

(** [ListingSchema.safeParse(form)]: [Some data] for [{success: true, data}],
    [None] for [{success: false}].  The schema has no transform, so [data]
    has the values of [form]. *)
Definition safeParse (f : ListingFormState) : option ListingFormState :=
  if schema_ok f then Some f else None.

(** ** The two prompts *)

(** [const lang = data.language === "es" ? "Spanish" : "English"]. *)
Definition lang (data : ListingFormState) : jsstring :=
  if decide (language data = js "es") then js "Spanish" else js "English".

Definition NA : jsstring := js "N/A".

(** The template literal [details] of [generate]. *)
Definition details (data : ListingFormState) : jsstring :=
  trim (nl ++ join_lines [
    js "Property Type: " ++ propertyType data;
    js "Address: " ++ or_default (address data) NA;
    js "Price: " ++ or_default (price data) NA;
    js "Beds: " ++ or_default (beds data) NA;
    js "Baths: " ++ or_default (baths data) NA;
    js "SqFt: " ++ or_default (sqft data) NA;
    js "Lot Size: " ++ or_default (lotSize data) NA;
    js "Year Built: " ++ or_default (yearBuilt data) NA;
    js "Parking: " ++ or_default (parking data) NA;
    js "Neighborhood: " ++ or_default (neighborhood data) NA;
    js "Highlights: " ++ highlights data
  ] ++ nl).

(** The fixed lines of the template literal [prompt], up to the heading of
    the details. *)
Definition prompt_lines : list jsstring := [
    js "You are a senior real estate listing copywriter with 20+ years experience.";
    js "You ONLY write text descriptions (NOT links, NOT MLS numbers, NOT emails).";
    js "You ALWAYS follow Fair Housing laws.";
    [];
    js "Write FIVE versions of listing copy for the following property, using the details provided.";
    [];
    js "Return your response as JSON with ONLY these keys:";
    dq ++ js "heading" ++ dq ++ js ", " ++ dq ++ js "mls" ++ dq ++ js ", "
       ++ dq ++ js "zillow" ++ dq ++ js ", " ++ dq ++ js "social" ++ dq ++ js ", "
       ++ dq ++ js "email" ++ dq ++ js ", " ++ dq ++ js "tiktok" ++ dq ++ js ".";
    [];
    js "### THE PURPOSE OF EACH FIELD:";
    [];
    js "heading:";
    js "- A short luxury-style headline (4–8 words)";
    js "- No emojis";
    [];
    js "mls:";
    js "- Professional MLS-style paragraph";
    js "- 120–160 words";
    js "- Full property description";
    js "- Include layout, features, materials, upgrades, PARKING, LOT SIZE, and YEAR BUILT where provided";
    js "- NO links, NO MLS numbers, NO contact info";
    [];
    js "zillow:";
    js "- Friendly, lifestyle-focused description";
    js "- 100–140 words";
    js "- More emotional, less formal";
    js "- Include some lifestyle context (near parks, schools, shopping) when provided";
    js "- NO links";
    [];
    js "social:";
    js "- Instagram-style caption";
    js "- 1–3 sentences";
    js "- Add 5–8 luxury real estate hashtags";
    js "- MAX 2 emojis";
    js "- NO links";
    [];
    js "email:";
    js "- Professional summary paragraph";
    js "- 60–100 words";
    js "- Written as if an agent is describing the home via email";
    js "- NO email addresses";
    [];
    js "tiktok:";
    js "- Hook + 4–6 bullet points + call-to-action";
    js "- MAX 2 emojis total";
    js "- NO TikTok links";
    js "- NO user handles";
    js "- Short, punchy, and high-energy";
    [];
    js "### PROPERTY DETAILS:"
].

(** The template literal [prompt] of [generate]: the prompt sent for a
    validated form. *)
Definition prompt (data : ListingFormState) : jsstring :=
  trim (nl ++ join_lines (prompt_lines ++ [details data]) ++ nl).

(** The template literal [prompt] of [rewriteSection]. *)
Definition rewrite_prompt (field : OutputKey) (instruction : jsstring)
    (current : JValue) : jsstring :=
  trim (nl ++ join_lines [
    js "You are a senior real estate copywriter.";
    js "Rewrite the existing " ++ key_name field
       ++ js " text below according to the instruction.";
    [];
    js "Instruction: " ++ instruction;
    [];
    js "Return JSON with ONLY this key: " ++ dq ++ key_name field ++ dq ++ js ".";
    [];
    js "Existing text:";
    dq ++ dq ++ dq ++ text_of current ++ dq ++ dq ++ dq
  ] ++ nl).

(** The arguments of [openai.chat.completions.create]; [response_format] is
    [json_object] in both calls. *)
Record ChatRequest := {
  model : jsstring;
  system_content : jsstring;
  user_content : jsstring
}.

Definition generate_request (data : ListingFormState) : ChatRequest :=
  {| model := js "gpt-4o-mini";
     system_content := js "You are a top-tier real estate listing copywriter. You ALWAYS follow Fair Housing rules and never reference protected classes.";
     user_content := prompt data |}.

Definition rewrite_request (field : OutputKey) (instruction : jsstring)
    (current : JValue) : ChatRequest :=
  {| model := js "gpt-4o-mini";
     system_content := js "You are an expert at rewriting real estate marketing copy while preserving key details and Fair Housing compliance.";
     user_content := rewrite_prompt field instruction current |}.

(** ** The endpoint and the platform *)

(** A call of [openai.chat.completions.create] awaiting its answer, with what
    the rest of the handler keeps from the render it was started in:
    [generate] keeps the validated [data], [rewriteSection] keeps [field] and
    the [selectedHistoryId] of that render. *)
Inductive Pending :=
| GenerateCall (request : ChatRequest) (data : ListingFormState)
| RewriteCall (request : ChatRequest) (field : OutputKey)
    (selected : option jsstring).

(** What [JSON.parse] makes of a text: it throws a [SyntaxError] or returns
    the parsed value.  Both calls ask for [response_format: json_object] and
    read the value as an object, so the value is a [JObject]. *)
Inductive ParseResult :=
| SyntaxError (message : jsstring)
| Parsed (json : JObject).

(** How a call settles: the promise rejects with [e.message], or resolves
    with [choices[0].message.content] ([None] for [null]); [parse] is what
    [JSON.parse] makes of a non-empty content. *)
Inductive Completion :=
| Rejected (message : jsstring)
| Resolved (content : option jsstring) (parse : ParseResult).

(** [JSON.parse(completion.choices[0].message.content || "{}")] inside the
    [try]: the message caught, or the parsed object.  A [null] or empty
    content is replaced by ["{}"], which parses to the empty object. *)
Definition parse_content (c : Completion) : jsstring + JObject :=
  match c with
  | Rejected message => inl message
  | Resolved content parse =>
    if truthy_opt content then
      match parse with
      | SyntaxError message => inl message
      | Parsed json => inr json
      end
    else inr ∅
  end.

(** What [addToHistory] reads from the platform:
    [crypto?.randomUUID?.() ?? Date.now().toString()],
    [Math.random().toString(16).slice(2)] and [new Date().toISOString()]. *)
Record Platform := {
  randomUUID : jsstring;
  random_hex : jsstring;
  now_iso : jsstring
}.

(** What the load effect finds under [HISTORY_KEY]: nothing (or an empty
    text), a text [JSON.parse] throws on, or the parsed [HistoryItem[]]. *)
Inductive Stored :=
| NoItem
| Unparsable
| Items (parsed : list HistoryItem).

(** ** The state of [App] *)

Record AppState := {
  loading : bool;
  rewriteLoadingKey : option jsstring;
  output : option ListingOutputs;
  error : option jsstring;
  copiedKey : option jsstring;
  form : ListingFormState;
  history : list HistoryItem;
  selectedHistoryId : option jsstring;
  inflight : list Pending   (* calls awaiting the endpoint, oldest first *)
}.

Definition setLoading (v : bool) (s : AppState) : AppState :=
  {| loading := v; rewriteLoadingKey := rewriteLoadingKey s; output := output s;
     error := error s; copiedKey := copiedKey s; form := form s;
     history := history s; selectedHistoryId := selectedHistoryId s;
     inflight := inflight s |}.

Definition setRewriteLoadingKey (v : option jsstring) (s : AppState) : AppState :=
  {| loading := loading s; rewriteLoadingKey := v; output := output s;
     error := error s; copiedKey := copiedKey s; form := form s;
     history := history s; selectedHistoryId := selectedHistoryId s;
     inflight := inflight s |}.

(** [setOutput(prev => f(prev))]; [setOutput(v)] is [setOutput (fun _ => v)]. *)
Definition setOutput (f : option ListingOutputs -> option ListingOutputs)
    (s : AppState) : AppState :=
  {| loading := loading s; rewriteLoadingKey := rewriteLoadingKey s;
     output := f (output s);
     error := error s; copiedKey := copiedKey s; form := form s;
     history := history s; selectedHistoryId := selectedHistoryId s;
     inflight := inflight s |}.

Definition setError (v : option jsstring) (s : AppState) : AppState :=
  {| loading := loading s; rewriteLoadingKey := rewriteLoadingKey s;
     output := output s;
     error := v; copiedKey := copiedKey s; form := form s;
     history := history s; selectedHistoryId := selectedHistoryId s;
     inflight := inflight s |}.

Definition setCopiedKey (v : option jsstring) (s : AppState) : AppState :=
  {| loading := loading s; rewriteLoadingKey := rewriteLoadingKey s;
     output := output s;
     error := error s; copiedKey := v; form := form s;
     history := history s; selectedHistoryId := selectedHistoryId s;
     inflight := inflight s |}.

(** [setForm(p => f(p))]. *)
Definition setForm (f : ListingFormState -> ListingFormState) (s : AppState)
    : AppState :=
  {| loading := loading s; rewriteLoadingKey := rewriteLoadingKey s;
     output := output s;
     error := error s; copiedKey := copiedKey s; form := f (form s);
     history := history s; selectedHistoryId := selectedHistoryId s;
     inflight := inflight s |}.

(** [setHistory(prev => f(prev))]. *)
Definition setHistory (f : list HistoryItem -> list HistoryItem) (s : AppState)
    : AppState :=
  {| loading := loading s; rewriteLoadingKey := rewriteLoadingKey s;
     output := output s;
     error := error s; copiedKey := copiedKey s; form := form s;
     history := f (history s); selectedHistoryId := selectedHistoryId s;
     inflight := inflight s |}.

Definition setSelectedHistoryId (v : option jsstring) (s : AppState) : AppState :=
  {| loading := loading s; rewriteLoadingKey := rewriteLoadingKey s;
     output := output s;
     error := error s; copiedKey := copiedKey s; form := form s;
     history := history s; selectedHistoryId := v;
     inflight := inflight s |}.

(** The call [p] is sent and awaits its answer. *)
Definition send (p : Pending) (s : AppState) : AppState :=
  {| loading := loading s; rewriteLoadingKey := rewriteLoadingKey s;
     output := output s;
     error := error s; copiedKey := copiedKey s; form := form s;
     history := history s; selectedHistoryId := selectedHistoryId s;
     inflight := inflight s ++ [p] |}.

(** The [n]-th call in flight has settled. *)
Definition settle (n : nat) (s : AppState) : AppState :=
  {| loading := loading s; rewriteLoadingKey := rewriteLoadingKey s;
     output := output s;
     error := error s; copiedKey := copiedKey s; form := form s;
     history := history s; selectedHistoryId := selectedHistoryId s;
     inflight := firstn n (inflight s) ++ skipn (S n) (inflight s) |}.

(** Statements of a handler run in order: [s |> f |> g] is [f] then [g]. *)
Notation "s |> f" := (f s) (at level 45, left associativity, only parsing).

(** The [useState] initial values. *)
Definition initial_form : ListingFormState :=
  {| propertyType := []; address := Some []; price := Some []; beds := Some [];
     baths := Some []; sqft := Some []; lotSize := Some []; yearBuilt := Some [];
     parking := Some []; neighborhood := Some []; highlights := [];
     tone := js "luxury"; length_ := js "medium"; language := js "en" |}.

Definition initial : AppState :=
  {| loading := false; rewriteLoadingKey := None; output := None; error := None;
     copiedKey := None; form := initial_form; history := [];
     selectedHistoryId := None; inflight := [] |}.

(** The load effect, run once after the first render. *)
Definition load_history (stored : Stored) (s : AppState) : AppState :=
  match stored with
  | NoItem => s
  | Unparsable => s
  | Items parsed => s |> setHistory (fun _ => parsed)
  end.

(** The [name] of an input, textarea or select of the form. *)
Inductive FieldName :=
| NPropertyType | NAddress | NPrice | NBeds | NBaths | NSqft | NLotSize
| NYearBuilt | NParking | NNeighborhood | NHighlights | NTone | NLength
| NLanguage.

(** [{...p, [name]: value}]. *)
Definition with_field (name : FieldName) (value : jsstring)
    (p : ListingFormState) : ListingFormState :=
  {| propertyType := match name with NPropertyType => value | _ => propertyType p end;
     address := match name with NAddress => Some value | _ => address p end;
     price := match name with NPrice => Some value | _ => price p end;
     beds := match name with NBeds => Some value | _ => beds p end;
     baths := match name with NBaths => Some value | _ => baths p end;
     sqft := match name with NSqft => Some value | _ => sqft p end;
     lotSize := match name with NLotSize => Some value | _ => lotSize p end;
     yearBuilt := match name with NYearBuilt => Some value | _ => yearBuilt p end;
     parking := match name with NParking => Some value | _ => parking p end;
     neighborhood :=
       match name with NNeighborhood => Some value | _ => neighborhood p end;
     highlights := match name with NHighlights => value | _ => highlights p end;
     tone := match name with NTone => value | _ => tone p end;
     length_ := match name with NLength => value | _ => length_ p end;
     language := match name with NLanguage => value | _ => language p end |}.

Definition change (name : FieldName) (value : jsstring) (s : AppState)
    : AppState :=
  s |> setForm (with_field name value).

(** ** History helpers *)

(** The updater [addToHistory] passes to [setHistory]. *)
Definition prepend_bounded (item : HistoryItem) (prev : list HistoryItem)
    : list HistoryItem :=
  let updated := item :: prev in
  if (HISTORY_LIMIT <? List.length updated)%nat
  then firstn HISTORY_LIMIT updated
  else updated.

(** The [id] and [item] [addToHistory] builds. *)
Definition new_id (p : Platform) : jsstring :=
  randomUUID p ++ js "-" ++ random_hex p.

Definition new_item (formData : ListingFormState) (outputs : ListingOutputs)
    (p : Platform) : HistoryItem :=
  {| item_id := new_id p;
     item_createdAt := now_iso p;
     item_form := formData;
     item_outputs := outputs;
     item_favorite := false |}.

Definition addToHistory (formData : ListingFormState)
    (outputs : ListingOutputs) (p : Platform) (s : AppState) : AppState :=
  s |> setHistory (prepend_bounded (new_item formData outputs p))
    |> setSelectedHistoryId (Some (new_id p)).

(** [{ ...h, favorite: !h.favorite }]. *)
Definition flip_favorite (h : HistoryItem) : HistoryItem :=
  {| item_id := item_id h; item_createdAt := item_createdAt h;
     item_form := item_form h; item_outputs := item_outputs h;
     item_favorite := negb (item_favorite h) |}.

Definition toggleFavorite (id : jsstring) (s : AppState) : AppState :=
  s |> setHistory
         (List.map (fun h => if decide (item_id h = id) then flip_favorite h else h)).

Definition loadFromHistory (item : HistoryItem) (s : AppState) : AppState :=
  s |> setForm (fun _ => item_form item)
    |> setOutput (fun _ => Some (item_outputs item))
    |> setSelectedHistoryId (Some (item_id item)).

Definition deleteFromHistory (id : jsstring) (s : AppState) : AppState :=
  let s1 :=
    s |> setHistory (List.filter (fun h => bool_decide (item_id h ≠ id))) in
  if decide (selectedHistoryId s = Some id)
  then s1 |> setSelectedHistoryId None |> setOutput (fun _ => None)
  else s1.

(** ** Copy helper *)

(** [copyToClipboard] once [writeText] has settled: resolved ([ok]) or
    rejected. *)
Definition copy_settled (key : jsstring) (ok : bool) (s : AppState) : AppState :=
  if ok then s |> setCopiedKey (Some key)
  else s |> setError (Some (js "Could not copy to clipboard.")).

(** The [setTimeout] callback of [copyToClipboard]. *)
Definition copied_timeout (s : AppState) : AppState :=
  s |> setCopiedKey None.

(** ** Generate listing *)

Definition validation_message : jsstring :=
  js "❌ Fill required fields correctly (Property Type & Highlights).".

(** [generate] up to its [await]. *)
Definition generate (s : AppState) : AppState :=
  let s1 :=
    s |> setLoading true |> setOutput (fun _ => None) |> setError None in
  match safeParse (form s) with
  | None => s1 |> setError (Some validation_message) |> setLoading false
  | Some data => s1 |> send (GenerateCall (generate_request data) data)
  end.

(** [generate] from its [await] on, given how the call settled. *)
Definition generate_settled (data : ListingFormState) (c : Completion)
    (p : Platform) (s : AppState) : AppState :=
  match parse_content c with
  | inr json =>
    s |> setOutput (fun _ => Some json) |> addToHistory data json p
  | inl message =>
    s |> setError (Some (js "OpenAI Error: " ++ message))
  end |> setLoading false.

(** ** Rewrite section *)

(** [{ ...h, outputs: { ...h.outputs, [field]: newFieldText } }]. *)
Definition with_output (field : OutputKey) (newFieldText : JValue)
    (h : HistoryItem) : HistoryItem :=
  {| item_id := item_id h; item_createdAt := item_createdAt h;
     item_form := item_form h;
     item_outputs := <[key_name field := newFieldText]> (item_outputs h);
     item_favorite := item_favorite h |}.

(** [rewriteSection] up to its [await]. *)
Definition rewriteSection (field : OutputKey) (instruction : jsstring)
    (s : AppState) : AppState :=
  match output s with
  | None => s
  | Some out =>
    match out !! key_name field with
    | None => s
    | Some current =>
      if negb (truthy current) then s
      else
        s |> setRewriteLoadingKey (Some (key_name field ++ js ":" ++ instruction))
          |> setError None
          |> send (RewriteCall (rewrite_request field instruction current)
                     field (selectedHistoryId s))
    end
  end.

Definition missing_field_message : jsstring :=
  js "Model did not return rewritten field.".

(** The two state updates of a rewrite that got its text. *)
Definition apply_rewrite (field : OutputKey) (selected : option jsstring)
    (newFieldText : JValue) (s : AppState) : AppState :=
  let s1 :=
    s |> setOutput (fun prev =>
           match prev with
           | Some o => Some (<[key_name field := newFieldText]> o)
           | None => prev
           end) in
  if truthy_opt selected then
    s1 |> setHistory
            (List.map (fun h =>
               if decide (Some (item_id h) = selected)
               then with_output field newFieldText h else h))
  else s1.

(** [rewriteSection] from its [await] on, given how the call settled. *)
Definition rewrite_settled (field : OutputKey) (selected : option jsstring)
    (c : Completion) (s : AppState) : AppState :=
  match parse_content c with
  | inr json =>
    match json !! key_name field with
    | Some newFieldText =>
      if negb (truthy newFieldText)
      then s |> setError (Some (js "Rewrite error: " ++ missing_field_message))
      else s |> apply_rewrite field selected newFieldText
    | None =>
      s |> setError (Some (js "Rewrite error: " ++ missing_field_message))
    end
  | inl message =>
    s |> setError (Some (js "Rewrite error: " ++ message))
  end |> setRewriteLoadingKey None.

(** [const isBusy = loading || !!rewriteLoadingKey]. *)
Definition isBusy (s : AppState) : bool :=
  loading s || truthy_opt (rewriteLoadingKey s).

(** ** The rendered page *)

(** The ten rewrite buttons of the output panel. *)
Inductive RewriteButton :=
| MlsShorter | MlsLonger | MlsMoreLuxury | MlsMoreCasual | MlsInvestor
| ZillowMoreLifestyle | ZillowShorter
| SocialStrongerHook
| EmailTighter
| TiktokMorePunch.

Definition button_field (b : RewriteButton) : OutputKey :=
  match b with
  | MlsShorter | MlsLonger | MlsMoreLuxury | MlsMoreCasual | MlsInvestor => mls
  | ZillowMoreLifestyle | ZillowShorter => zillow
  | SocialStrongerHook => social
  | EmailTighter => email
  | TiktokMorePunch => tiktok
  end.

Definition button_instruction (b : RewriteButton) : jsstring :=
  match b with
  | MlsShorter => js "Make this shorter while keeping key details."
  | MlsLonger => js "Make this slightly longer and more descriptive."
  | MlsMoreLuxury =>
    js "Make this feel more luxury and high-end without adding fluff."
  | MlsMoreCasual => js "Make the tone slightly more casual and conversational."
  | MlsInvestor =>
    js "Make this more appealing to investors while staying compliant."
  | ZillowMoreLifestyle =>
    js "Make this slightly more lifestyle-focused and emotional."
  | ZillowShorter => js "Tighten this up and make it a bit shorter."
  | SocialStrongerHook =>
    js "Punch this up with a stronger hook and more scroll-stopping language, but no extra emojis."
  | EmailTighter =>
    js "Make this slightly more concise and direct while remaining professional."
  | TiktokMorePunch =>
    js "Make this punchier and more hook-driven for a 20–30 second real estate TikTok."
  end.

(** [disabled={rewriteLoadingKey?.startsWith("<field>:") || loading}]. *)
Definition rewrite_disabled (field : OutputKey) (s : AppState) : bool :=
  match rewriteLoadingKey s with
  | Some key => startsWith key (key_name field ++ js ":")
  | None => false
  end || loading s.

(** What the user and the environment can do to the page. *)
Inductive Event :=
| Change (name : FieldName) (value : jsstring)
| ClickGenerate
| ClickRewrite (b : RewriteButton)
| ClickRow (i : nat)        (* the i-th row of the history list *)
| ClickStar (i : nat)
| ClickDelete (i : nat)
| CopySettled (key : jsstring) (ok : bool)
| CopiedTimeout
| Settled (n : nat) (c : Completion) (p : Platform).
   (* the n-th call in flight settles *)

(** One event on the rendered page.  The Generate button is
    [disabled={isBusy}]; the rewrite buttons are rendered under [output &&]
    and disabled by [rewrite_disabled]; the history rows are always live. *)
Definition dispatch (s : AppState) (e : Event) : AppState :=
  match e with
  | Change name value => change name value s
  | ClickGenerate => if isBusy s then s else generate s
  | ClickRewrite b =>
    match output s with
    | None => s
    | Some _ =>
      if rewrite_disabled (button_field b) s then s
      else rewriteSection (button_field b) (button_instruction b) s
    end
  | ClickRow i =>
    match nth_error (history s) i with
    | Some item => loadFromHistory item s
    | None => s
    end
  | ClickStar i =>
    match nth_error (history s) i with
    | Some item => toggleFavorite (item_id item) s
    | None => s
    end
  | ClickDelete i =>
    match nth_error (history s) i with
    | Some item => deleteFromHistory (item_id item) s
    | None => s
    end
  | CopySettled key ok => copy_settled key ok s
  | CopiedTimeout => copied_timeout s
  | Settled n c p =>
    match nth_error (inflight s) n with
    | Some (GenerateCall _ data) => settle n s |> generate_settled data c p
    | Some (RewriteCall _ field selected) =>
      settle n s |> rewrite_settled field selected c
    | None => s
    end
  end.

(** The page after a sequence of events. *)
Definition run (s : AppState) (es : list Event) : AppState :=
  fold_left dispatch es s.

(** The states the page can be in: started from what the load effect makes
    of the stored history, then any events. *)
Definition reachable_from (stored : Stored) (s : AppState) : Prop :=
  exists es, s = run (load_history stored initial) es.

(** The generations among the calls in flight. *)
Definition is_generate (p : Pending) : bool :=
  match p with GenerateCall _ _ => true | RewriteCall _ _ _ => false end.

Definition generations (l : list Pending) : nat :=
  List.length (List.filter is_generate l).

(** A form the schema accepts, used by the examples below. *)
Definition condo : ListingFormState :=
  {| propertyType := js "Condo"; address := Some []; price := Some [];
     beds := Some []; baths := Some []; sqft := Some []; lotSize := Some [];
     yearBuilt := Some []; parking := Some []; neighborhood := Some [];
     highlights := js "ocean view, updated kitchen";
     tone := js "luxury"; length_ := js "medium"; language := js "en" |}.

(** One addition: the form, the outputs and what the platform gave for the
    id and the date. *)
Definition Addition : Type := ListingFormState * ListingOutputs * Platform.

Definition added_item (a : Addition) : HistoryItem :=
  new_item (fst (fst a)) (snd (fst a)) (snd a).

(** [addToHistory] called once per addition, in order. *)
Definition add_all (adds : list Addition) (s : AppState) : AppState :=
  fold_left (fun s a => addToHistory (fst (fst a)) (snd (fst a)) (snd a) s)
    adds s.

Definition ids (l : list HistoryItem) : list jsstring := List.map item_id l.

(** Sample data for the examples below: a log of [n] entries with distinct
    ids, and values for what the platform supplies. *)
Definition sample_item (n : nat) : HistoryItem :=
  {| item_id := [N.of_nat n]; item_createdAt := []; item_form := condo;
     item_outputs := ∅; item_favorite := false |}.

Definition sample_log (n : nat) : list HistoryItem :=
  List.map sample_item (seq 0 n).

Definition sample_platform : Platform :=
  {| randomUUID := js "3f2c"; random_hex := js "9ab4";
     now_iso := js "2024-05-01T10:00:00.000Z" |}.

(** The number of entries the load effect finds. *)
Definition stored_length (stored : Stored) : nat :=
  match stored with
  | Items parsed => List.length parsed
  | NoItem | Unparsable => 0%nat
  end.

(** The page with the form [condo] typed in, and a page showing an output
    of two fields whose entry is selected in a log of three. *)
Definition condo_page : AppState := setForm (fun _ => condo) initial.

Definition sample_outputs : ListingOutputs :=
  <[key_name mls := JString (js "Bright two-bedroom condo.")]>
    (<[key_name zillow := JString (js "Wake up to the ocean.")]>
       (<[key_name social := JString []]> ∅)).

Definition sample_page : AppState :=
  initial |> setHistory (fun _ => sample_log 3)
          |> setOutput (fun _ => Some sample_outputs)
          |> setSelectedHistoryId (Some [1]).

(** A session in which a listing is generated and its [mls] text is sent for
    a rewrite, which is still pending at the end. *)
Definition rewrite_pending_events : list Event := [
  Change NPropertyType (js "Condo");
  Change NHighlights (js "ocean view");
  ClickGenerate;
  Settled 0 (Resolved (Some (js "{...}")) (Parsed sample_outputs)) sample_platform;
  ClickRewrite MlsShorter
].

Definition rewrite_pending_page : AppState :=
  run (load_history NoItem initial) rewrite_pending_events.

(** The selection names an entry of the log. *)
Definition selection_in_log (s : AppState) : Prop :=
  forall id, selectedHistoryId s = Some id -> id ∈ ids (history s).

(** The updater [toggleFavorite] passes to [setHistory]. *)
Definition toggled (id : jsstring) (h : HistoryItem) : HistoryItem :=
  if decide (item_id h = id) then flip_favorite h else h.

(** Edits of the form: the [Change] events of a list of (name, value)
    pairs, and the form they leave. *)
Definition Edit : Type := FieldName * jsstring.

Definition edit_events (edits : list Edit) : list Event :=
  List.map (fun e => Change (fst e) (snd e)) edits.

Definition edited (edits : list Edit) (f : ListingFormState) : ListingFormState :=
  fold_left (fun f e => with_field (fst e) (snd e) f) edits f.

(** The [<option value=...>] lists of the three selects of the form. *)
Definition tone_options : list jsstring :=
  [js "luxury"; js "standard"; js "investor"; js "casual"; js "hype"; js "simple"].

Definition length_options : list jsstring := [js "short"; js "medium"; js "long"].

Definition language_options : list jsstring := [js "en"; js "es"].

(** An event the rendered inputs can produce: a [Change] of a select
    carries one of its option values; text inputs carry any text. *)
Definition widget_event (e : Event) : Prop :=
  match e with
  | Change NTone value => value ∈ tone_options
  | Change NLength value => value ∈ length_options
  | Change NLanguage value => value ∈ language_options
  | _ => True
  end.

(** The three enum fields hold enumerated values. *)
Definition enums_ok (f : ListingFormState) : Prop :=
  tone f ∈ tone_values /\ length_ f ∈ length_values /\
  language f ∈ language_values.

(** The forms the page holds: in the inputs, in the log and in the
    generations in flight. *)
Definition call_enums_ok (p : Pending) : Prop :=
  match p with
  | GenerateCall _ data => enums_ok data
  | RewriteCall _ _ _ => True
  end.

Definition forms_ok (s : AppState) : Prop :=
  enums_ok (form s) /\
  Forall (fun h => enums_ok (item_form h)) (history s) /\
  Forall call_enums_ok (inflight s).

Definition stored_forms_ok (stored : Stored) : Prop :=
  match stored with
  | Items parsed => Forall (fun h => enums_ok (item_form h)) parsed
  | NoItem | Unparsable => True
  end.

(** [s.trimEnd()], the second half of [trim]. *)
Definition trimEnd (s : jsstring) : jsstring := rev (trimStart (rev s)).

(** The lines of the template literal [details], between its first and its
    last line feed. *)
Definition details_lines (data : ListingFormState) : list jsstring := [
    js "Property Type: " ++ propertyType data;
    js "Address: " ++ or_default (address data) NA;
    js "Price: " ++ or_default (price data) NA;
    js "Beds: " ++ or_default (beds data) NA;
    js "Baths: " ++ or_default (baths data) NA;
    js "SqFt: " ++ or_default (sqft data) NA;
    js "Lot Size: " ++ or_default (lotSize data) NA;
    js "Year Built: " ++ or_default (yearBuilt data) NA;
    js "Parking: " ++ or_default (parking data) NA;
    js "Neighborhood: " ++ or_default (neighborhood data) NA;
    js "Highlights: " ++ highlights data
  ].

(** The lines of the template literal [prompt] of [rewriteSection]. *)
Definition rewrite_lines (field : OutputKey) (instruction : jsstring)
    (current : JValue) : list jsstring := [
    js "You are a senior real estate copywriter.";
    js "Rewrite the existing " ++ key_name field
       ++ js " text below according to the instruction.";
    [];
    js "Instruction: " ++ instruction;
    [];
    js "Return JSON with ONLY this key: " ++ dq ++ key_name field ++ dq ++ js ".";
    [];
    js "Existing text:";
    dq ++ dq ++ dq ++ text_of current ++ dq ++ dq ++ dq
  ].

(** * Properties *)

(** ** Strings *)

Example js_en_dash : js "4–8" = [52; 8211; 56].
Proof. reflexivity. Qed.

Example trim_template : trim (nl ++ js "Highlights: pool  " ++ nl) = js "Highlights: pool".
Proof. reflexivity. Qed.

Lemma key_name_inj (f g : OutputKey) : key_name f = key_name g -> f = g.
Proof. destruct f, g; intros H; solve [reflexivity | discriminate H]. Qed.

(** ** Validation *)

Lemma schema_ok_spec (f : ListingFormState) :
  schema_ok f = true <->
  propertyType f <> [] /\ (3 <= List.length (highlights f))%nat /\
  tone f ∈ tone_values /\ length_ f ∈ length_values /\
  language f ∈ language_values.
Proof.
  unfold schema_ok.
  rewrite !andb_true_iff, !bool_decide_eq_true, !Nat.leb_le.
  destruct (propertyType f) as [|c r]; simpl; split; intros H.
  - lia.
  - tauto.
  - repeat split; try tauto. discriminate.
  - repeat split; try tauto. lia.
Qed.

Lemma safeParse_Some (f : ListingFormState) :
  schema_ok f = true -> safeParse f = Some f.
Proof. unfold safeParse. intros ->. reflexivity. Qed.

Lemma safeParse_None (f : ListingFormState) :
  schema_ok f = false -> safeParse f = None.
Proof. unfold safeParse. intros ->. reflexivity. Qed.

(** C7.  [generate] rejects a form whose property type is empty, whose
    highlights have fewer than three characters, or whose tone, length or
    language is not one of the enumerated values: it then shows the one
    message that names Property Type and Highlights, sends no request and
    is not loading.  It accepts every other form, whatever the optional
    fields hold, and sends the request built from it. *)
Theorem generate_validates (s : AppState) :
  ((propertyType (form s) = [] \/ (List.length (highlights (form s)) < 3)%nat \/
    tone (form s) ∉ tone_values \/ length_ (form s) ∉ length_values \/
    language (form s) ∉ language_values) ->
   safeParse (form s) = None /\
   error (generate s) = Some validation_message /\
   inflight (generate s) = inflight s /\
   loading (generate s) = false) /\
  ((propertyType (form s) <> [] /\ (3 <= List.length (highlights (form s)))%nat /\
    tone (form s) ∈ tone_values /\ length_ (form s) ∈ length_values /\
    language (form s) ∈ language_values) ->
   safeParse (form s) = Some (form s) /\
   error (generate s) = None /\
   inflight (generate s) =
     inflight s ++ [GenerateCall (generate_request (form s)) (form s)] /\
   loading (generate s) = true) /\
  includes validation_message (js "Property Type") = true /\
  includes validation_message (js "Highlights") = true.
Proof.
  split; [|split; [|split; reflexivity]].
  - intros Hbad.
    assert (Hno : schema_ok (form s) = false).
    { destruct (schema_ok (form s)) eqn:E; [|reflexivity].
      apply schema_ok_spec in E. destruct E as (H1 & H2 & H3 & H4 & H5).
      destruct Hbad as [H | [H | [H | [H | H]]]];
        solve [contradiction | lia]. }
    unfold generate. rewrite (safeParse_None _ Hno). repeat split.
  - intros Hgood. apply schema_ok_spec in Hgood.
    unfold generate. rewrite (safeParse_Some _ Hgood). repeat split.
Qed.

(** A form with every optional field empty is accepted; without highlights
    it is rejected. *)
Lemma generate_validates_witness :
  inflight (generate (setForm (fun _ => condo) initial)) =
    [GenerateCall (generate_request condo) condo] /\
  error (generate initial) = Some validation_message.
Proof.
  split.
  - apply (generate_validates (setForm (fun _ => condo) initial)).
    vm_compute. repeat split; try discriminate; try lia; repeat constructor.
  - apply (generate_validates initial). left. reflexivity.
Defined.

(** ** The generation prompt *)

(** The prompt reads the eleven property fields and nothing else: forms
    that differ only in tone, length or language get the same prompt. *)
Lemma prompt_ignores_style (f : ListingFormState) (t l g : jsstring) :
  prompt (with_field NTone t (with_field NLength l (with_field NLanguage g f)))
  = prompt f.
Proof. reflexivity. Qed.

(** C1, at the form [condo] (tone luxury, length medium, language en), which
    the schema accepts: [toneMap], [lengthMap] and [lang] give the luxury
    phrase, "120–180 words" and "English", and the prompt sent contains none
    of the three; sent with the tone standard instead, the prompt is the
    same text. *)
Theorem prompt_lacks_style_phrases :
  safeParse condo = Some condo /\
  record_get toneMap (tone condo)
    = Some (js "high-end, premium, aspirational luxury tone") /\
  record_get lengthMap (length_ condo) = Some (js "120–180 words") /\
  lang condo = js "English" /\
  includes (prompt condo) (js "high-end, premium, aspirational luxury tone")
    = false /\
  includes (prompt condo) (js "120–180 words") = false /\
  includes (prompt condo) (js "English") = false /\
  prompt (with_field NTone (js "standard") condo) = prompt condo.
Proof. vm_compute. repeat split. Qed.

(** ** The history log *)

Lemma prepend_bounded_firstn (item : HistoryItem) (prev : list HistoryItem) :
  prepend_bounded item prev = firstn HISTORY_LIMIT (item :: prev).
Proof.
  unfold prepend_bounded.
  destruct (Nat.ltb_spec HISTORY_LIMIT (List.length (item :: prev))) as [H|H].
  - reflexivity.
  - symmetry. apply firstn_all2. exact H.
Qed.

Lemma prepend_bounded_length (item : HistoryItem) (prev : list HistoryItem) :
  List.length (prepend_bounded item prev)
  = Nat.min HISTORY_LIMIT (S (List.length prev)).
Proof. rewrite prepend_bounded_firstn. apply length_firstn. Qed.

Lemma prepend_bounded_twice (a b : HistoryItem) (l : list HistoryItem) :
  firstn HISTORY_LIMIT (a :: firstn HISTORY_LIMIT (b :: l))
  = firstn HISTORY_LIMIT (a :: b :: l).
Proof.
  change HISTORY_LIMIT with (S 49) at 1 3.
  rewrite !firstn_cons. f_equal.
  rewrite firstn_firstn. reflexivity.
Qed.

Lemma firstn_app_firstn {A} (n : nat) (l1 l2 : list A) :
  firstn n (l1 ++ firstn n l2) = firstn n (l1 ++ l2).
Proof.
  rewrite !firstn_app, firstn_firstn. f_equal. f_equal. lia.
Qed.

Lemma add_all_cons (a : Addition) (adds : list Addition) (s : AppState) :
  add_all (a :: adds) s
  = add_all adds (addToHistory (fst (fst a)) (snd (fst a)) (snd a) s).
Proof. reflexivity. Qed.

Lemma addToHistory_history formData outputs p s :
  history (addToHistory formData outputs p s)
  = firstn HISTORY_LIMIT (new_item formData outputs p :: history s).
Proof. simpl. apply prepend_bounded_firstn. Qed.

Lemma add_all_history (adds : list Addition) (s : AppState) :
  (List.length (history s) <= HISTORY_LIMIT)%nat ->
  history (add_all adds s)
  = firstn HISTORY_LIMIT (rev (List.map added_item adds) ++ history s).
Proof.
  revert s. induction adds as [|a adds IH]; intros s Hlen.
  - simpl. symmetry. apply firstn_all2. exact Hlen.
  - rewrite add_all_cons, IH.
    + rewrite addToHistory_history, firstn_app_firstn.
      simpl. rewrite <- app_assoc. reflexivity.
    + rewrite addToHistory_history, length_firstn. lia.
Qed.

Lemma ids_firstn (n : nat) (l : list HistoryItem) :
  ids (firstn n l) = firstn n (ids l).
Proof. unfold ids. symmetry. apply firstn_map. Qed.

(** C2, as the code has it.  [addToHistory] builds an entry with
    [favorite = false], the given form and outputs and the id the platform's
    values spell ([randomUUID] or the clock, a dash, the random digits); the
    new log is that entry followed by the old log, cut to the newest 50, so a
    full log of 50 loses its last (oldest) entry; the new id is the
    selection.  The id is not compared with the log: in a log of distinct
    ids the ids stay distinct exactly when the id spelled is not the id of
    one of the 49 newest entries, which are the ones kept.  After any
    additions to a log within the bound, the log is the additions newest
    first, in reverse order of insertion, before the old entries, cut to
    50. *)
Theorem addToHistory_prepends (formData : ListingFormState)
    (outputs : ListingOutputs) (p : Platform) (s : AppState) :
  let item := new_item formData outputs p in
  let s' := addToHistory formData outputs p s in
  HISTORY_LIMIT = 50%nat /\
  item_favorite item = false /\ item_form item = formData /\
  item_outputs item = outputs /\
  item_id item = randomUUID p ++ js "-" ++ random_hex p /\
  history s' = firstn HISTORY_LIMIT (item :: history s) /\
  hd_error (history s') = Some item /\
  List.length (history s') = Nat.min HISTORY_LIMIT (S (List.length (history s))) /\
  (List.length (history s) = HISTORY_LIMIT ->
   history s' = item :: removelast (history s)) /\
  selectedHistoryId s' = Some (item_id item) /\
  (NoDup (ids (history s)) -> item_id item ∉ ids (history s) ->
   NoDup (ids (history s'))) /\
  (forall adds : list Addition,
     (List.length (history s) <= HISTORY_LIMIT)%nat ->
     history (add_all adds s)
     = firstn HISTORY_LIMIT (rev (List.map added_item adds) ++ history s)) /\
  (forall adds : list Addition,
     history s = [] -> (List.length adds <= HISTORY_LIMIT)%nat ->
     history (add_all adds s) = rev (List.map added_item adds)) /\
  (NoDup (ids (history s)) ->
   (NoDup (ids (history s'))
    <-> item_id item ∉ ids (firstn (HISTORY_LIMIT - 1) (history s)))).
Proof.
  intros item s'. subst s'.
  rewrite addToHistory_history. fold item.
  repeat match goal with |- _ /\ _ => split end; try reflexivity.
  - apply length_firstn.
  - intros Hfull. change HISTORY_LIMIT with (S 49). rewrite firstn_cons.
    f_equal. rewrite removelast_firstn_len, Hfull. reflexivity.
  - intros Hnd Hfresh. rewrite ids_firstn.
    apply (sublist_NoDup _ (ids (item :: history s))).
    + simpl. apply NoDup_cons. split; assumption.
    + apply sublist_take.
  - intros adds Hlen. apply add_all_history. exact Hlen.
  - intros adds Hempty Hlen. rewrite add_all_history by (rewrite Hempty; simpl; lia).
    rewrite Hempty, app_nil_r. apply firstn_all2.
    rewrite length_rev, length_map. exact Hlen.
  - intros Hnd. change HISTORY_LIMIT with (S 49).
    change (S 49 - 1)%nat with 49%nat. rewrite firstn_cons.
    change (ids (item :: firstn 49 (history s)))
      with (item_id item :: ids (firstn 49 (history s))).
    rewrite NoDup_cons. split; [tauto|]. intros Hnew. split; [exact Hnew|].
    rewrite ids_firstn. apply (sublist_NoDup _ (ids (history s))).
    + exact Hnd.
    + apply sublist_take.
Qed.

(** Adding to a full log of 50: the new entry comes first and the oldest
    entry is gone. *)
Lemma addToHistory_prepends_witness :
  history (addToHistory condo ∅ sample_platform
             (setHistory (fun _ => sample_log 50) initial))
  = new_item condo ∅ sample_platform :: removelast (sample_log 50).
Proof.
  apply (addToHistory_prepends condo ∅ sample_platform
           (setHistory (fun _ => sample_log 50) initial)).
  reflexivity.
Defined.

(** C2 as stated fails on the id: it is new only as far as the platform's
    values are.  Two generations for which the platform gives the same
    values end in a log whose two entries have the same id, the second
    entry having been added under an id the log already held. *)
Lemma same_platform_values_repeat_the_id :
  new_id sample_platform
    ∈ ids (history (addToHistory condo ∅ sample_platform initial)) /\
  reachable_from NoItem
    (run (load_history NoItem initial)
       [Change NPropertyType (js "Condo"); Change NHighlights (js "ocean view");
        ClickGenerate;
        Settled 0 (Resolved (Some (js "{...}")) (Parsed sample_outputs))
          sample_platform;
        ClickGenerate;
        Settled 0 (Resolved (Some (js "{...}")) (Parsed sample_outputs))
          sample_platform]) /\
  ids (history
         (run (load_history NoItem initial)
            [Change NPropertyType (js "Condo"); Change NHighlights (js "ocean view");
             ClickGenerate;
             Settled 0 (Resolved (Some (js "{...}")) (Parsed sample_outputs))
               sample_platform;
             ClickGenerate;
             Settled 0 (Resolved (Some (js "{...}")) (Parsed sample_outputs))
               sample_platform]))
  = [new_id sample_platform; new_id sample_platform].
Proof.
  split; [|split].
  - apply (bool_decide_unpack _). vm_compute. exact I.
  - eexists. reflexivity.
  - vm_compute. reflexivity.
Qed.

Ltac break_match :=
  match goal with
  | |- context [match ?x with _ => _ end] => destruct x eqn:?
  end.

Lemma length_filter_le {A} (f : A -> bool) (l : list A) :
  (List.length (List.filter f l) <= List.length l)%nat.
Proof.
  induction l as [|x l IH]; simpl; [lia|]. destruct (f x); simpl; lia.
Qed.

(** What each event does to the length of the log: an addition gives at
    most [HISTORY_LIMIT], everything else never lengthens it. *)
Lemma dispatch_history_length (s : AppState) (e : Event) :
  (List.length (history (dispatch s e))
   <= Nat.max (List.length (history s)) HISTORY_LIMIT)%nat.
Proof.
  destruct e; simpl; unfold generate, generate_settled, rewrite_settled,
    apply_rewrite, rewriteSection, deleteFromHistory, copy_settled;
    repeat break_match; simpl;
    rewrite ?length_map, ?prepend_bounded_length;
    try lia;
    match goal with
    | |- context [List.filter ?f ?l] => pose proof (length_filter_le f l); lia
    end.
Qed.

Lemma run_history_length (es : list Event) (s : AppState) :
  (List.length (history s) <= HISTORY_LIMIT)%nat ->
  (List.length (history (run s es)) <= HISTORY_LIMIT)%nat.
Proof.
  revert s. induction es as [|e es IH]; intros s H; [exact H|].
  simpl. apply IH. pose proof (dispatch_history_length s e). lia.
Qed.

(** C3, as the code has it: the load effect installs the stored entries as
    they are, so the bound [HISTORY_LIMIT] holds in every state of a page
    that found at most 50 entries stored; no event takes the log beyond it. *)
Theorem history_bounded (stored : Stored) (s : AppState) :
  (stored_length stored <= HISTORY_LIMIT)%nat ->
  reachable_from stored s ->
  (List.length (history s) <= HISTORY_LIMIT)%nat.
Proof.
  intros Hstored [es ->]. apply run_history_length.
  destruct stored; simpl in *; solve [lia | exact Hstored].
Qed.

Lemma history_bounded_witness :
  (List.length
     (history
        (run (load_history (Items (sample_log 50)) initial)
           [Change NPropertyType (js "Condo");
            Change NHighlights (js "ocean view");
            ClickGenerate;
            Settled 0 (Resolved (Some (js "{}")) (Parsed ∅)) sample_platform;
            ClickStar 3; ClickDelete 7]))
   <= HISTORY_LIMIT)%nat.
Proof.
  apply (history_bounded (Items (sample_log 50))).
  - vm_compute. lia.
  - eexists. reflexivity.
Defined.

(** C3 as stated fails at startup: 51 stored entries are loaded as they are. *)
Lemma overlong_log_is_loaded :
  exists s : AppState,
    reachable_from (Items (sample_log 51)) s /\
    (HISTORY_LIMIT < List.length (history s))%nat.
Proof.
  exists (load_history (Items (sample_log 51)) initial). split.
  - exists []. reflexivity.
  - vm_compute. lia.
Qed.

(** ** Deleting *)

Lemma filter_sublist {A} (f : A -> bool) (l : list A) :
  List.filter f l `sublist_of` l.
Proof.
  induction l as [|x l IH]; simpl; [constructor|].
  destruct (f x); constructor; exact IH.
Qed.

Lemma elem_of_filter_bool {A} (f : A -> bool) (l : list A) (x : A) :
  x ∈ List.filter f l <-> x ∈ l /\ f x = true.
Proof. rewrite !list_elem_of_In. apply filter_In. Qed.

(** C8.  [deleteFromHistory id] keeps exactly the entries whose id is not
    [id], in their order.  When [id] is the selection, the selection and the
    displayed output are cleared; otherwise both are as before.  Nothing
    else of the state changes. *)
Theorem deleteFromHistory_selection (id : jsstring) (s : AppState) :
  (forall h, h ∈ history (deleteFromHistory id s)
             <-> h ∈ history s /\ item_id h <> id) /\
  (history (deleteFromHistory id s) `sublist_of` history s) /\
  (id ∉ ids (history (deleteFromHistory id s))) /\
  (selectedHistoryId s = Some id ->
   selectedHistoryId (deleteFromHistory id s) = None /\
   output (deleteFromHistory id s) = None) /\
  (selectedHistoryId s <> Some id ->
   selectedHistoryId (deleteFromHistory id s) = selectedHistoryId s /\
   output (deleteFromHistory id s) = output s) /\
  form (deleteFromHistory id s) = form s /\
  error (deleteFromHistory id s) = error s /\
  loading (deleteFromHistory id s) = loading s /\
  rewriteLoadingKey (deleteFromHistory id s) = rewriteLoadingKey s /\
  inflight (deleteFromHistory id s) = inflight s.
Proof.
  assert (Hh : history (deleteFromHistory id s)
               = List.filter (fun h => bool_decide (item_id h ≠ id)) (history s)).
  { unfold deleteFromHistory. destruct (decide _); reflexivity. }
  assert (Hmem : forall h, h ∈ history (deleteFromHistory id s)
                           <-> h ∈ history s /\ item_id h <> id).
  { intros h. rewrite Hh, elem_of_filter_bool, bool_decide_eq_true. tauto. }
  split; [exact Hmem|]. split; [rewrite Hh; apply filter_sublist|].
  split.
  { unfold ids. intros Hin. apply list_elem_of_In, in_map_iff in Hin.
    destruct Hin as (h & Hid & Hin). apply list_elem_of_In, Hmem in Hin.
    tauto. }
  unfold deleteFromHistory. destruct (decide (selectedHistoryId s = Some id));
    repeat split; intros; try reflexivity; contradiction.
Qed.

(** Deleting the selected entry of [sample_page] clears the output; deleting
    another entry leaves it. *)
Lemma deleteFromHistory_selection_witness :
  output (deleteFromHistory [1] sample_page) = None /\
  output (deleteFromHistory [2] sample_page) = Some sample_outputs.
Proof.
  split.
  - apply (deleteFromHistory_selection [1] sample_page). reflexivity.
  - apply (deleteFromHistory_selection [2] sample_page). discriminate.
Defined.

(** ** Rewriting one field *)

(** C10.  With no current output, or with the empty string as the current
    text of the field, [rewriteSection] returns the state it was given: no
    call is in flight that was not, and no field of the state has changed.
    A click on a rewrite button of that field does nothing either. *)
Theorem rewriteSection_noop (field : OutputKey) (instruction : jsstring)
    (s : AppState) :
  (output s = None \/
   exists o, output s = Some o /\ o !! key_name field = Some (JString [])) ->
  rewriteSection field instruction s = s /\
  inflight (rewriteSection field instruction s) = inflight s /\
  forall b, button_field b = field -> dispatch s (ClickRewrite b) = s.
Proof.
  intros H.
  assert (Hno : forall i, rewriteSection field i s = s).
  { intros i. unfold rewriteSection.
    destruct H as [-> | (o & -> & ->)]; reflexivity. }
  split; [apply Hno|]. split; [rewrite Hno; reflexivity|].
  intros b <-. simpl. destruct (output s); [|reflexivity].
  destruct (rewrite_disabled _ s); [reflexivity|apply Hno].
Qed.

Lemma rewriteSection_noop_witness :
  rewriteSection heading (js "Make it shorter.") initial = initial /\
  rewriteSection social (js "Make it shorter.") sample_page = sample_page.
Proof.
  split.
  - apply (rewriteSection_noop heading (js "Make it shorter.") initial).
    left. reflexivity.
  - apply (rewriteSection_noop social (js "Make it shorter.") sample_page).
    right. exists sample_outputs. split; reflexivity.
Defined.

(** A property that is missing or falsy is read like the empty string. *)
Lemma rewriteSection_falsy (field : OutputKey) (instruction : jsstring)
    (s : AppState) (o : ListingOutputs) :
  output s = Some o -> truthy_prop (o !! key_name field) = false ->
  rewriteSection field instruction s = s.
Proof.
  intros Ho Hf. unfold rewriteSection. rewrite Ho.
  destruct (o !! key_name field) as [v|]; [|reflexivity].
  simpl in Hf. rewrite Hf. reflexivity.
Qed.

(** A rewrite that does not get a truthy text for its field, whatever the
    reason (the call rejected, the text did not parse, the key is missing or
    its value is falsy), sets a rewrite error and leaves the output and the
    log as they were. *)
Lemma rewrite_settled_failure (field : OutputKey) (selected : option jsstring)
    (c : Completion) (s : AppState) :
  (forall json v, parse_content c = inr json ->
                  json !! key_name field = Some v -> truthy v = false) ->
  (exists m, error (rewrite_settled field selected c s)
             = Some (js "Rewrite error: " ++ m)) /\
  output (rewrite_settled field selected c s) = output s /\
  history (rewrite_settled field selected c s) = history s.
Proof.
  intros Hfail. unfold rewrite_settled.
  destruct (parse_content c) as [m|json] eqn:Hc.
  - split; [exists m; reflexivity|]. split; reflexivity.
  - destruct (json !! key_name field) as [v|] eqn:Hv.
    + rewrite (Hfail json v eq_refl Hv). simpl.
      split; [eexists; reflexivity|]. split; reflexivity.
    + split; [eexists; reflexivity|]. split; reflexivity.
Qed.

(** C9.  When the parsed answer to a rewrite of [field] has no key [field],
    the rewrite ends with the error "Rewrite error: Model did not return
    rewritten field."; the displayed output and the log, and so the text of
    [field] in both, are what they were; the rewrite is no longer pending. *)
Theorem rewrite_missing_field (field : OutputKey) (selected : option jsstring)
    (c : Completion) (json : JObject) (s : AppState) :
  parse_content c = inr json ->
  json !! key_name field = None ->
  error (rewrite_settled field selected c s)
    = Some (js "Rewrite error: Model did not return rewritten field.") /\
  output (rewrite_settled field selected c s) = output s /\
  history (rewrite_settled field selected c s) = history s /\
  selectedHistoryId (rewrite_settled field selected c s) = selectedHistoryId s /\
  rewriteLoadingKey (rewrite_settled field selected c s) = None.
Proof.
  intros Hc Hmiss. unfold rewrite_settled. rewrite Hc, Hmiss.
  split; [|split; [|split; [|split]]]; [|reflexivity..].
  cbn [error setRewriteLoadingKey setError].
  vm_compute. reflexivity.
Qed.

(** A rewrite of [mls] answered by an object that only has [zillow]. *)
Lemma rewrite_missing_field_witness :
  error (rewrite_settled mls (Some [1])
           (Resolved (Some (js "{...}"))
              (Parsed (<[key_name zillow := JString (js "New text")]> ∅)))
           sample_page)
  = Some (js "Rewrite error: Model did not return rewritten field.").
Proof.
  apply (rewrite_missing_field mls (Some [1]) _
           (<[key_name zillow := JString (js "New text")]> ∅) sample_page);
    reflexivity.
Defined.

Lemma nth_error_map_if {A} (P : A -> bool) (f : A -> A) (l : list A)
    (i : nat) (h : A) :
  nth_error l i = Some h ->
  nth_error (List.map (fun x => if P x then f x else x) l) i
  = Some (if P h then f h else h).
Proof. intros H. rewrite nth_error_map, H. reflexivity. Qed.

(** C4.  A rewrite of [field] that got the text [v] (the parsed answer has
    a truthy [field]) changes the displayed output only at [field]: each of
    the other five keys reads as before.  In the log, every entry keeps its
    place, id, date, form and favorite flag and all outputs other than
    [field]; an entry whose id is not [selected], the selection of the page
    the rewrite was started from, is unchanged, and the selected entry has
    the new text at [field].  The form, the selection and the error are
    untouched. *)
Theorem rewrite_replaces_only_field (field : OutputKey)
    (selected : option jsstring) (c : Completion) (json : JObject)
    (v : JValue) (s : AppState) :
  parse_content c = inr json ->
  json !! key_name field = Some v ->
  truthy v = true ->
  (output s = None -> output (rewrite_settled field selected c s) = None) /\
  (forall o, output s = Some o ->
     exists o', output (rewrite_settled field selected c s) = Some o' /\
       o' !! key_name field = Some v /\
       forall g, g <> field -> o' !! key_name g = o !! key_name g) /\
  List.length (history (rewrite_settled field selected c s))
    = List.length (history s) /\
  (forall i h, nth_error (history s) i = Some h ->
     exists h',
       nth_error (history (rewrite_settled field selected c s)) i = Some h' /\
       item_id h' = item_id h /\ item_createdAt h' = item_createdAt h /\
       item_form h' = item_form h /\ item_favorite h' = item_favorite h /\
       (forall g, g <> field ->
          item_outputs h' !! key_name g = item_outputs h !! key_name g) /\
       (Some (item_id h) <> selected -> h' = h) /\
       (Some (item_id h) = selected -> item_id h <> [] ->
        item_outputs h' !! key_name field = Some v)) /\
  form (rewrite_settled field selected c s) = form s /\
  selectedHistoryId (rewrite_settled field selected c s) = selectedHistoryId s /\
  error (rewrite_settled field selected c s) = error s.
Proof.
  intros Hc Hv Ht.
  assert (Hne : forall g, g <> field -> key_name field <> key_name g).
  { intros g Hg E. apply Hg. symmetry. apply key_name_inj. exact E. }
  unfold rewrite_settled. rewrite Hc, Hv, Ht. simpl.
  unfold apply_rewrite.
  split; [|split; [|split; [|split]]].
  - intros Ho. destruct (truthy_opt selected); simpl; rewrite Ho; reflexivity.
  - intros o Ho. exists (<[key_name field := v]> o).
    split; [destruct (truthy_opt selected); simpl; rewrite Ho; reflexivity|].
    split; [apply lookup_insert_eq|].
    intros g Hg. apply lookup_insert_ne, Hne, Hg.
  - destruct (truthy_opt selected); simpl; [apply length_map|reflexivity].
  - intros i h Hi. destruct (truthy_opt selected) eqn:Hsel; simpl.
    + rewrite nth_error_map, Hi. simpl.
      destruct (decide (Some (item_id h) = selected)) as [E|E].
      * eexists. split; [reflexivity|]. simpl. repeat split.
        -- intros g Hg. apply lookup_insert_ne, Hne, Hg.
        -- intros Hn. contradiction.
        -- intros _ _. apply lookup_insert_eq.
      * exists h. repeat split; try reflexivity. intros Hn. contradiction.
    + exists h. split; [exact Hi|]. repeat split; try reflexivity.
      intros E Hid. subst selected. destruct (item_id h); [contradiction|].
      discriminate Hsel.
  - destruct (truthy_opt selected); repeat split.
Qed.

(** Scenario B of the specification on [sample_page], for [zillow]: the
    rewritten text arrives, [mls] is as before. *)
Lemma rewrite_replaces_only_field_witness :
  exists o',
    output (rewrite_settled zillow (Some [1])
              (Resolved (Some (js "{...}"))
                 (Parsed (<[key_name zillow := JString (js "New hook!")]> ∅)))
              sample_page) = Some o' /\
    o' !! key_name zillow = Some (JString (js "New hook!")) /\
    forall g, g <> zillow -> o' !! key_name g = sample_outputs !! key_name g.
Proof.
  apply (rewrite_replaces_only_field zillow (Some [1])
           (Resolved (Some (js "{...}"))
              (Parsed (<[key_name zillow := JString (js "New hook!")]> ∅)))
           (<[key_name zillow := JString (js "New hook!")]> ∅)
           (JString (js "New hook!")) sample_page);
    reflexivity.
Defined.

(** ** The answer to a generation *)

Lemma settle_last (p : Pending) (s : AppState) :
  nth_error (inflight (send p s)) (List.length (inflight s)) = Some p /\
  settle (List.length (inflight s)) (send p s) = s.
Proof.
  split.
  - simpl. rewrite nth_error_app2, Nat.sub_diag by lia. reflexivity.
  - unfold settle, send. cbn [inflight loading rewriteLoadingKey output error
      copiedKey form history selectedHistoryId].
    rewrite firstn_app, Nat.sub_diag, firstn_all, firstn_O, app_nil_r.
    rewrite skipn_app, skipn_all2 by lia.
    replace (S (List.length (inflight s)) - List.length (inflight s))%nat
      with 1%nat by lia.
    simpl. rewrite app_nil_r. destruct s; reflexivity.
Qed.

(** A generation whose call settles before anything else happens. *)
Lemma dispatch_generate_settled (s : AppState) (c : Completion) (p : Platform) :
  schema_ok (form s) = true ->
  dispatch (generate s) (Settled (List.length (inflight s)) c p)
  = generate_settled (form s) c p
      (s |> setLoading true |> setOutput (fun _ => None) |> setError None).
Proof.
  intros Hok. unfold generate. rewrite (safeParse_Some _ Hok).
  set (s1 := s |> setLoading true |> setOutput (fun _ => None) |> setError None).
  set (call := GenerateCall (generate_request (form s)) (form s)).
  destruct (settle_last call s1) as [Hn Hs].
  change (inflight s) with (inflight s1).
  unfold dispatch. rewrite Hn. unfold call at 1. rewrite Hs. reflexivity.
Qed.

(** C6, as the code has it.  For a generation started from an accepted form
    whose call settles next: a non-empty answer that is not valid JSON ends
    in the error "OpenAI Error: <message>", with no output displayed and the
    log and selection as before (1); an answer that yields an object, be it
    the parsed non-empty text or the empty object read for an empty or null
    content (3, 4), becomes the output and the outputs of a new first entry
    as it is (2): a key missing from it is missing from the output too, and
    is read by [rewriteSection] like the empty string. *)
Theorem generate_response (s : AppState) (c : Completion) (p : Platform) :
  schema_ok (form s) = true ->
  let s2 := dispatch (generate s) (Settled (List.length (inflight s)) c p) in
  (forall text message,
     c = Resolved (Some text) (SyntaxError message) -> text <> [] ->
     error s2 = Some (js "OpenAI Error: " ++ message) /\
     output s2 = None /\ history s2 = history s /\
     selectedHistoryId s2 = selectedHistoryId s) /\
  (forall json, parse_content c = inr json ->
     error s2 = None /\ output s2 = Some json /\
     history s2 = firstn HISTORY_LIMIT (new_item (form s) json p :: history s) /\
     selectedHistoryId s2 = Some (new_id p) /\
     forall k, json !! key_name k = None ->
       (exists o, output s2 = Some o /\ o !! key_name k = None) /\
       forall instruction, rewriteSection k instruction s2 = s2) /\
  (forall text json, text <> [] ->
     parse_content (Resolved (Some text) (Parsed json)) = inr json) /\
  (forall parse,
     parse_content (Resolved None parse) = inr ∅ /\
     parse_content (Resolved (Some []) parse) = inr ∅) /\
  loading s2 = false /\ inflight s2 = inflight s.
Proof.
  intros Hok s2. subst s2. rewrite (dispatch_generate_settled s c p Hok).
  unfold generate_settled.
  split; [|split; [|split; [|split; [|split]]]].
  - intros text message -> Hne. destruct text as [|ch text]; [contradiction|].
    cbn [parse_content truthy_opt]. repeat split.
  - intros json ->. split; [reflexivity|]. split; [reflexivity|].
    split; [unfold addToHistory;
            cbn [history setLoading setSelectedHistoryId setHistory setOutput
                 setError];
            apply prepend_bounded_firstn|].
    split; [reflexivity|].
    intros k Hk. split.
    + exists json. split; [reflexivity|exact Hk].
    + intros instruction. apply (rewriteSection_falsy k instruction _ json).
      * reflexivity.
      * rewrite Hk. reflexivity.
  - intros [|ch text] json Hne; [contradiction|reflexivity].
  - intros parse. split; reflexivity.
  - destruct (parse_content c); reflexivity.
  - destruct (parse_content c); reflexivity.
Qed.

(** Scenario C of the specification: text that is not JSON. *)
Lemma generate_response_witness :
  error (dispatch (generate condo_page)
           (Settled 0 (Resolved (Some (js "Sorry, no."))
                         (SyntaxError (js "Unexpected token S")))
              sample_platform))
  = Some (js "OpenAI Error: " ++ js "Unexpected token S").
Proof.
  assert (Hok : schema_ok (form condo_page) = true) by (vm_compute; reflexivity).
  destruct (generate_response condo_page
              (Resolved (Some (js "Sorry, no."))
                 (SyntaxError (js "Unexpected token S")))
              sample_platform Hok) as [H _].
  apply (H (js "Sorry, no.") (js "Unexpected token S")).
  - reflexivity.
  - discriminate.
Defined.

(** C6 as stated fails for an empty answer: the empty text is not valid
    JSON, yet the generation succeeds with the empty object as output and
    one more entry in the log. *)
Lemma empty_answer_is_accepted :
  error (dispatch (generate condo_page)
           (Settled 0 (Resolved (Some [])
                         (SyntaxError (js "Unexpected end of JSON input")))
              sample_platform)) = None /\
  output (dispatch (generate condo_page)
           (Settled 0 (Resolved (Some [])
                         (SyntaxError (js "Unexpected end of JSON input")))
              sample_platform)) = Some ∅ /\
  List.length
    (history (dispatch (generate condo_page)
           (Settled 0 (Resolved (Some [])
                         (SyntaxError (js "Unexpected end of JSON input")))
              sample_platform)))
  = S (List.length (history condo_page)).
Proof. vm_compute. repeat split. Qed.

(** ** One operation at a time *)

Lemma generations_app (l1 l2 : list Pending) :
  generations (l1 ++ l2) = (generations l1 + generations l2)%nat.
Proof. unfold generations. rewrite List.filter_app, length_app. reflexivity. Qed.

Lemma generations_settle (l : list Pending) (n : nat) (x : Pending) :
  nth_error l n = Some x ->
  generations l
  = (generations (firstn n l ++ skipn (S n) l)
     + if is_generate x then 1 else 0)%nat.
Proof.
  intros H. destruct (nth_error_split l n H) as (l1 & l2 & -> & <-).
  rewrite firstn_app, Nat.sub_diag, firstn_all, firstn_O, app_nil_r.
  rewrite skipn_app, skipn_all2 by lia.
  replace (S (List.length l1) - List.length l1)%nat with 1%nat by lia.
  simpl skipn. change (x :: l2) with ([x] ++ l2). rewrite !generations_app.
  assert (Hx : generations [x] = if is_generate x then 1%nat else 0%nat)
    by (unfold generations; simpl; destruct (is_generate x); reflexivity).
  rewrite Hx. change (generations []) with 0%nat.
  change (skipn 0 l2) with l2.
  destruct (is_generate x); lia.
Qed.

Lemma startsWith_app (p r : jsstring) : startsWith (p ++ r) p = true.
Proof.
  induction p as [|a p IH]; simpl; [destruct r; reflexivity|].
  rewrite N.eqb_refl. exact IH.
Qed.

(** The flag [loading] counts the generations in flight. *)
Definition loading_counts (s : AppState) : Prop :=
  generations (inflight s) = if loading s then 1%nat else 0%nat.

Lemma dispatch_loading_counts (s : AppState) (e : Event) :
  loading_counts s -> loading_counts (dispatch s e).
Proof.
  unfold loading_counts. intros Hinv. destruct e; simpl.
  - exact Hinv.
  - unfold isBusy. destruct (loading s) eqn:Hl; simpl; [rewrite Hl; exact Hinv|].
    destruct (truthy_opt (rewriteLoadingKey s)); [rewrite Hl; exact Hinv|].
    unfold generate. destruct (safeParse (form s)); simpl.
    + rewrite generations_app, Hinv. reflexivity.
    + exact Hinv.
  - destruct (output s) as [o|] eqn:Ho; [|exact Hinv].
    unfold rewrite_disabled.
    destruct (loading s) eqn:Hl.
    { rewrite orb_true_r, Hl. exact Hinv. }
    rewrite orb_false_r.
    destruct (match rewriteLoadingKey s with
              | Some key => startsWith key (key_name (button_field b) ++ js ":")
              | None => false
              end); [rewrite Hl; exact Hinv|].
    unfold rewriteSection. rewrite Ho.
    destruct (o !! key_name (button_field b)) as [v|]; [|rewrite Hl; exact Hinv].
    destruct (truthy v); simpl; [|rewrite Hl; exact Hinv].
    rewrite generations_app, Hinv, Hl. reflexivity.
  - destruct (nth_error (history s) i); exact Hinv.
  - destruct (nth_error (history s) i); exact Hinv.
  - destruct (nth_error (history s) i); [|exact Hinv].
    unfold deleteFromHistory. destruct (decide _); exact Hinv.
  - unfold copy_settled. destruct ok; exact Hinv.
  - exact Hinv.
  - destruct (nth_error (inflight s) n) as [x|] eqn:Hn; [|exact Hinv].
    pose proof (generations_settle _ _ _ Hn) as Hg.
    destruct x as [r data | r field selected]; simpl in Hg.
    + assert (Hz : generations (firstn n (inflight s) ++ skipn (S n) (inflight s))
                   = 0%nat).
      { destruct (loading s); lia. }
      unfold generate_settled. destruct (parse_content c); simpl; exact Hz.
    + assert (Hz : generations (firstn n (inflight s) ++ skipn (S n) (inflight s))
                   = if loading s then 1%nat else 0%nat) by lia.
      unfold rewrite_settled, apply_rewrite.
      destruct (parse_content c) as [m|json]; [exact Hz|].
      destruct (json !! key_name field) as [v|]; [|exact Hz].
      destruct (truthy v); simpl; [|exact Hz].
      destruct (truthy_opt selected); exact Hz.
Qed.

Lemma run_loading_counts (es : list Event) (s : AppState) :
  loading_counts s -> loading_counts (run s es).
Proof.
  revert s. induction es as [|e es IH]; intros s H; [exact H|].
  simpl. apply IH, dispatch_loading_counts, H.
Qed.

(** C5, as the code has it.  In every state of the page, [loading] is set
    exactly while a generation is in flight, and there is never more than
    one.  While [loading] is set, a click on Generate or on any rewrite
    button changes nothing: nothing is started or queued.  While [isBusy]
    holds (a generation is loading or a rewrite key is set), a click on
    Generate changes nothing.  While the rewrite key names a field, a click
    on a rewrite button of that field changes nothing. *)
Theorem single_flight (stored : Stored) (s : AppState) :
  reachable_from stored s ->
  generations (inflight s) = (if loading s then 1%nat else 0%nat) /\
  (loading s = true ->
   dispatch s ClickGenerate = s /\ forall b, dispatch s (ClickRewrite b) = s) /\
  (isBusy s = true -> dispatch s ClickGenerate = s) /\
  (forall b instruction,
     rewriteLoadingKey s
       = Some (key_name (button_field b) ++ js ":" ++ instruction) ->
     dispatch s (ClickRewrite b) = s).
Proof.
  intros [es ->]. split; [|split; [|split]].
  - apply run_loading_counts. destruct stored; reflexivity.
  - intros Hl. split.
    + simpl. unfold isBusy. rewrite Hl. reflexivity.
    + intros b. simpl. unfold rewrite_disabled. rewrite Hl, orb_true_r.
      destruct (output _); reflexivity.
  - intros Hb. simpl. rewrite Hb. reflexivity.
  - intros b instruction Hk. simpl. unfold rewrite_disabled. rewrite Hk.
    rewrite app_assoc, startsWith_app. simpl.
    destruct (output _); reflexivity.
Qed.

(** On [rewrite_pending_page], where the rewrite of [mls] is pending, a
    second click on an [mls] button is rejected. *)
Lemma single_flight_witness :
  dispatch rewrite_pending_page (ClickRewrite MlsLonger) = rewrite_pending_page.
Proof.
  assert (Hr : reachable_from NoItem rewrite_pending_page)
    by (exists rewrite_pending_events; reflexivity).
  destruct (single_flight NoItem rewrite_pending_page Hr) as (_ & _ & _ & H).
  apply (H MlsLonger (button_instruction MlsShorter)).
  vm_compute. reflexivity.
Defined.

(** C5 as stated fails: while the rewrite of [mls] is pending, a click on a
    rewrite button of [zillow] is not rejected; its call is sent, and two
    rewrites are in flight. *)
Lemma second_rewrite_is_started :
  reachable_from NoItem rewrite_pending_page /\
  List.map is_generate (inflight rewrite_pending_page) = [false] /\
  isBusy rewrite_pending_page = true /\
  List.map is_generate
    (inflight (dispatch rewrite_pending_page (ClickRewrite ZillowShorter)))
  = [false; false].
Proof.
  split; [exists rewrite_pending_events; reflexivity|].
  vm_compute. repeat split.
Qed.

(** * Further properties of the handlers *)

(** ** The selection *)

Lemma ids_map_same (g : HistoryItem -> HistoryItem) (l : list HistoryItem) :
  (forall h, item_id (g h) = item_id h) -> ids (List.map g l) = ids l.
Proof.
  intros Hg. unfold ids. rewrite List.map_map. apply map_ext. exact Hg.
Qed.

Lemma elem_of_ids (id : jsstring) (l : list HistoryItem) :
  id ∈ ids l <-> exists h, h ∈ l /\ item_id h = id.
Proof.
  unfold ids. rewrite list_elem_of_In, in_map_iff.
  split; intros (h & H1 & H2); exists h; rewrite ?list_elem_of_In in *; tauto.
Qed.

Lemma nth_error_elem_of {A} (l : list A) (i : nat) (x : A) :
  nth_error l i = Some x -> x ∈ l.
Proof. intros H. apply list_elem_of_In. eapply nth_error_In, H. Qed.

Lemma dispatch_selection_in_log (s : AppState) (e : Event) :
  selection_in_log s -> selection_in_log (dispatch s e).
Proof.
  unfold selection_in_log. intros Hinv. destruct e; simpl.
  - exact Hinv.
  - destruct (isBusy s); [exact Hinv|]. unfold generate.
    destruct (safeParse (form s)); exact Hinv.
  - destruct (output s) as [o|] eqn:Ho; [|exact Hinv].
    destruct (rewrite_disabled _ s); [exact Hinv|].
    unfold rewriteSection. rewrite Ho.
    destruct (o !! _) as [v|]; [|exact Hinv].
    destruct (truthy v); exact Hinv.
  - destruct (nth_error (history s) i) as [item|] eqn:Hi; [|exact Hinv].
    simpl. intros id [= <-]. apply elem_of_ids. exists item.
    split; [eapply nth_error_elem_of, Hi|reflexivity].
  - destruct (nth_error (history s) i) as [item|]; [|exact Hinv].
    simpl. intros id Hid. rewrite ids_map_same; [apply Hinv, Hid|].
    intros h. destruct (decide _); reflexivity.
  - destruct (nth_error (history s) i) as [item|]; [|exact Hinv].
    unfold deleteFromHistory.
    destruct (decide (selectedHistoryId s = Some (item_id item))) as [E|E];
      simpl; [discriminate|].
    intros id Hid. apply elem_of_ids.
    destruct (proj1 (elem_of_ids _ _) (Hinv id Hid)) as (h & Hh & Hhid).
    exists h. split; [|exact Hhid].
    apply elem_of_filter_bool. split; [exact Hh|].
    apply bool_decide_eq_true. congruence.
  - unfold copy_settled. destruct ok; exact Hinv.
  - exact Hinv.
  - destruct (nth_error (inflight s) n) as [[r data|r field selected]|];
      [| |exact Hinv].
    + unfold generate_settled. destruct (parse_content c) as [m|json];
        [exact Hinv|].
      simpl. intros id [= <-]. rewrite prepend_bounded_firstn.
      change HISTORY_LIMIT with (S 49). rewrite firstn_cons. simpl.
      apply list_elem_of_here.
    + unfold rewrite_settled, apply_rewrite.
      destruct (parse_content c) as [m|json]; [exact Hinv|].
      destruct (json !! key_name field) as [v|]; [|exact Hinv].
      destruct (truthy v); simpl; [|exact Hinv].
      destruct (truthy_opt selected); simpl; [|exact Hinv].
      intros id Hid. rewrite ids_map_same; [apply Hinv, Hid|].
      intros h. destruct (decide _); reflexivity.
Qed.

(** X1.  In every state of the page, whatever the load effect found, the
    selection is either unset or the id of an entry in the log: deleting,
    evicting and rewriting never leave a selection without its entry. *)
Theorem selection_names_entry (stored : Stored) (s : AppState) (id : jsstring) :
  reachable_from stored s ->
  selectedHistoryId s = Some id ->
  exists h, h ∈ history s /\ item_id h = id.
Proof.
  intros [es ->] Hsel. apply elem_of_ids. revert id Hsel.
  change (selection_in_log (run (load_history stored initial) es)).
  assert (H0 : selection_in_log (load_history stored initial))
    by (destruct stored; intros id; discriminate).
  revert H0. generalize (load_history stored initial).
  induction es as [|e es IH]; intros s0 H0; [exact H0|].
  simpl. apply IH, dispatch_selection_in_log, H0.
Qed.

Lemma selection_names_entry_witness :
  exists h, h ∈ history (run (load_history (Items (sample_log 3)) initial)
                           [ClickRow 2; ClickStar 2; ClickDelete 0])
            /\ item_id h = [2].
Proof.
  apply (selection_names_entry (Items (sample_log 3))).
  - eexists. reflexivity.
  - vm_compute. reflexivity.
Defined.

(** ** Favorites *)

Lemma flip_favorite_twice (h : HistoryItem) :
  flip_favorite (flip_favorite h) = h.
Proof. destruct h as [i d f o b]. unfold flip_favorite. simpl. rewrite negb_involutive. reflexivity. Qed.

Lemma toggled_twice (id : jsstring) (h : HistoryItem) :
  toggled id (toggled id h) = h.
Proof.
  unfold toggled. destruct (decide (item_id h = id)) as [E|E].
  - simpl. rewrite decide_True by exact E. apply flip_favorite_twice.
  - rewrite decide_False by exact E. reflexivity.
Qed.

Lemma toggleFavorite_history (id : jsstring) (s : AppState) :
  history (toggleFavorite id s) = List.map (toggled id) (history s).
Proof. reflexivity. Qed.

Lemma map_unchanged {A} (g : A -> A) (l : list A) :
  (forall x, x ∈ l -> g x = x) -> List.map g l = l.
Proof.
  intros H. rewrite <- (map_id l) at 2. apply map_ext_in.
  intros x Hx. apply H, list_elem_of_In, Hx.
Qed.

(** X2.  [toggleFavorite]: toggling the same id twice gives back the state;
    toggling an id that no entry has changes nothing; in general the log
    keeps its length, order and ids, each entry with the id has its
    favorite flag flipped and nothing else changed, every other entry is
    untouched, and so are the output, the selection and the form. *)
Theorem toggleFavorite_flips (id : jsstring) (s : AppState) :
  toggleFavorite id (toggleFavorite id s) = s /\
  (id ∉ ids (history s) -> toggleFavorite id s = s) /\
  ids (history (toggleFavorite id s)) = ids (history s) /\
  (forall i h, nth_error (history s) i = Some h ->
     exists h', nth_error (history (toggleFavorite id s)) i = Some h' /\
       item_id h' = item_id h /\ item_createdAt h' = item_createdAt h /\
       item_form h' = item_form h /\ item_outputs h' = item_outputs h /\
       item_favorite h'
       = (if decide (item_id h = id) then negb (item_favorite h)
          else item_favorite h)) /\
  output (toggleFavorite id s) = output s /\
  selectedHistoryId (toggleFavorite id s) = selectedHistoryId s /\
  form (toggleFavorite id s) = form s.
Proof.
  split; [|split; [|split; [|split; [|repeat split]]]].
  - destruct s as [l k o e ck f hs sel fl]. unfold toggleFavorite, setHistory.
    simpl. f_equal. rewrite List.map_map. apply map_unchanged.
    intros h _. apply (toggled_twice id h).
  - intros Hno. destruct s as [l k o e ck f hs sel fl].
    unfold toggleFavorite, setHistory. simpl in *. f_equal.
    apply map_unchanged. intros h Hh.
    destruct (decide (item_id h = id)) as [E|E]; [|reflexivity].
    exfalso. apply Hno, elem_of_ids. exists h. split; assumption.
  - rewrite toggleFavorite_history. apply ids_map_same.
    intros h. unfold toggled. destruct (decide _); reflexivity.
  - intros i h Hi. rewrite toggleFavorite_history, nth_error_map, Hi.
    eexists. split; [reflexivity|]. unfold toggled.
    destruct (decide (item_id h = id)); repeat split.
Qed.

Lemma firstn_map_toggled (id : jsstring) (n : nat) (l : list HistoryItem) :
  List.map (toggled id) (firstn n l) = firstn n (List.map (toggled id) l).
Proof. symmetry. apply firstn_map. Qed.

(** X3.  Starring and adding commute: for an id other than the one the new
    entry gets, toggling the favorite and then adding gives the same state as
    adding and then toggling.  The cut to 50 entries pays no regard to the
    favorite flag. *)
Theorem toggleFavorite_addToHistory_commute (id : jsstring)
    (formData : ListingFormState) (outputs : ListingOutputs) (p : Platform)
    (s : AppState) :
  new_id p <> id ->
  toggleFavorite id (addToHistory formData outputs p s)
  = addToHistory formData outputs p (toggleFavorite id s).
Proof.
  intros Hne. destruct s as [l k o e ck f hs sel fl].
  unfold toggleFavorite, addToHistory, setHistory, setSelectedHistoryId.
  simpl. f_equal.
  rewrite !prepend_bounded_firstn.
  change (fun h : HistoryItem =>
            if decide (item_id h = id) then flip_favorite h else h)
    with (toggled id).
  rewrite firstn_map_toggled. simpl List.map. f_equal. f_equal.
  unfold toggled. apply decide_False. exact Hne.
Qed.

Lemma toggleFavorite_addToHistory_commute_witness :
  toggleFavorite [7] (addToHistory condo ∅ sample_platform
                        (setHistory (fun _ => sample_log 50) initial))
  = addToHistory condo ∅ sample_platform
      (toggleFavorite [7] (setHistory (fun _ => sample_log 50) initial)).
Proof.
  apply (toggleFavorite_addToHistory_commute [7] condo ∅ sample_platform).
  vm_compute. discriminate.
Defined.

(** ** Adding and deleting *)

Lemma filter_unchanged {A} (f : A -> bool) (l : list A) :
  (forall x, x ∈ l -> f x = true) -> List.filter f l = l.
Proof.
  induction l as [|x l IH]; intros H; simpl; [reflexivity|].
  rewrite (H x) by apply list_elem_of_here. f_equal.
  apply IH. intros y Hy. apply H, list_elem_of_further, Hy.
Qed.

Lemma filter_twice {A} (f : A -> bool) (l : list A) :
  List.filter f (List.filter f l) = List.filter f l.
Proof.
  apply filter_unchanged. intros x Hx. apply elem_of_filter_bool in Hx. tauto.
Qed.

Lemma filter_other_ids (id : jsstring) (l : list HistoryItem) :
  id ∉ ids l ->
  List.filter (fun h => bool_decide (item_id h ≠ id)) l = l.
Proof.
  intros Hno. apply filter_unchanged. intros h Hh.
  apply bool_decide_eq_true. intros E. apply Hno, elem_of_ids.
  exists h. split; assumption.
Qed.

(** X4.  Adding an entry under a new id and deleting it again: the log is
    the old log cut to 49 entries, so it is the old log when that had fewer
    than 50 entries, and it has lost its last (oldest) entry when that was
    full; the selection and the displayed output end up cleared. *)
Theorem add_then_delete (formData : ListingFormState)
    (outputs : ListingOutputs) (p : Platform) (s : AppState) :
  new_id p ∉ ids (history s) ->
  (history (deleteFromHistory (new_id p) (addToHistory formData outputs p s))
   = firstn 49 (history s)) /\
  ((List.length (history s) < HISTORY_LIMIT)%nat ->
   history (deleteFromHistory (new_id p) (addToHistory formData outputs p s))
   = history s) /\
  (List.length (history s) = HISTORY_LIMIT ->
   history (deleteFromHistory (new_id p) (addToHistory formData outputs p s))
   = removelast (history s)) /\
  selectedHistoryId
    (deleteFromHistory (new_id p) (addToHistory formData outputs p s)) = None /\
  output (deleteFromHistory (new_id p) (addToHistory formData outputs p s))
  = None.
Proof.
  intros Hfresh.
  assert (Hh : history (deleteFromHistory (new_id p)
                          (addToHistory formData outputs p s))
               = firstn 49 (history s)).
  { unfold deleteFromHistory.
    assert (E : history (setHistory
                  (List.filter (fun h => bool_decide (item_id h ≠ new_id p)))
                  (addToHistory formData outputs p s))
                = firstn 49 (history s)).
    { cbn [history setHistory]. rewrite addToHistory_history.
      change HISTORY_LIMIT with (S 49). rewrite firstn_cons. simpl List.filter.
      rewrite bool_decide_eq_false_2 by (intros H; apply H; reflexivity).
      apply filter_other_ids. intros Hin. apply Hfresh.
      unfold ids in *. rewrite <- firstn_map in Hin.
      eapply subseteq_take, Hin. }
    destruct (decide _); exact E. }
  split; [exact Hh|]. split; [|split].
  - intros Hlt. rewrite Hh. apply firstn_all2. unfold HISTORY_LIMIT in Hlt. lia.
  - intros Hfull. rewrite Hh, removelast_firstn_len, Hfull. reflexivity.
  - unfold deleteFromHistory, addToHistory.
    cbn [selectedHistoryId setSelectedHistoryId setHistory].
    rewrite decide_True by reflexivity. split; reflexivity.
Qed.

Lemma add_then_delete_witness :
  history (deleteFromHistory (new_id sample_platform)
             (addToHistory condo ∅ sample_platform
                (setHistory (fun _ => sample_log 50) initial)))
  = removelast (sample_log 50).
Proof.
  apply (add_then_delete condo ∅ sample_platform
           (setHistory (fun _ => sample_log 50) initial)).
  - apply (bool_decide_unpack _). vm_compute. exact I.
  - reflexivity.
Defined.

(** X5.  Deleting is idempotent: deleting the same id a second time changes
    nothing more.  Deleting an id that no entry has, and that is not the
    selection, changes nothing at all. *)
Theorem deleteFromHistory_idempotent (id : jsstring) (s : AppState) :
  deleteFromHistory id (deleteFromHistory id s) = deleteFromHistory id s /\
  (id ∉ ids (history s) -> selectedHistoryId s <> Some id ->
   deleteFromHistory id s = s).
Proof.
  split.
  - destruct s as [l k o e ck f hs sel fl]. unfold deleteFromHistory.
    cbn [selectedHistoryId setHistory].
    destruct (decide (sel = Some id)) as [E|E];
      cbn [selectedHistoryId setSelectedHistoryId setOutput setHistory
           loading rewriteLoadingKey output error copiedKey form history
           inflight].
    + rewrite decide_False by discriminate.
      unfold setOutput, setSelectedHistoryId, setHistory. cbn.
      rewrite filter_twice. reflexivity.
    + rewrite decide_False by exact E.
      unfold setHistory. cbn. rewrite filter_twice. reflexivity.
  - intros Hno Hsel. destruct s as [l k o e ck f hs sel fl].
    unfold deleteFromHistory. cbn [selectedHistoryId setHistory history] in *.
    rewrite decide_False by exact Hsel.
    unfold setHistory. cbn.
    rewrite (filter_other_ids id hs Hno). reflexivity.
Qed.

Lemma deleteFromHistory_idempotent_witness :
  deleteFromHistory [9] sample_page = sample_page.
Proof.
  apply (deleteFromHistory_idempotent [9] sample_page).
  - apply (bool_decide_unpack _). vm_compute. exact I.
  - discriminate.
Defined.

(** ** Answers that arrive late *)

(** X6.  A rewrite whose entry was deleted while the call was pending: the
    output is then cleared and no entry has the id the rewrite was started
    with, and the answer, even a good one, changes neither the output nor
    the log; it only ends the pending mark. *)
Theorem rewrite_after_delete (field : OutputKey) (selected : option jsstring)
    (c : Completion) (json : JObject) (v : JValue) (s : AppState) :
  parse_content c = inr json ->
  json !! key_name field = Some v ->
  truthy v = true ->
  output s = None ->
  (forall id, selected = Some id -> id ∉ ids (history s)) ->
  output (rewrite_settled field selected c s) = None /\
  history (rewrite_settled field selected c s) = history s /\
  error (rewrite_settled field selected c s) = error s /\
  rewriteLoadingKey (rewrite_settled field selected c s) = None.
Proof.
  intros Hc Hv Ht Ho Hsel. unfold rewrite_settled, apply_rewrite.
  rewrite Hc, Hv, Ht. cbn [negb].
  destruct (truthy_opt selected);
    cbn [output history error rewriteLoadingKey setRewriteLoadingKey
         setHistory setOutput]; rewrite Ho; repeat split.
  apply map_unchanged. intros h Hh.
  destruct (decide (Some (item_id h) = selected)) as [E|E]; [|reflexivity].
  exfalso. apply (Hsel (item_id h)); [symmetry; exact E|].
  apply elem_of_ids. exists h. split; [exact Hh|reflexivity].
Qed.

(** On [sample_page]: the [mls] rewrite is sent, the selected row is deleted,
    then the answer arrives. *)
Lemma rewrite_after_delete_witness :
  history (rewrite_settled mls (Some [1])
             (Resolved (Some (js "{...}"))
                (Parsed (<[key_name mls := JString (js "Shorter text.")]> ∅)))
             (deleteFromHistory [1] (rewriteSection mls (js "Shorter") sample_page)))
  = history (deleteFromHistory [1] (rewriteSection mls (js "Shorter") sample_page)).
Proof.
  apply (rewrite_after_delete mls (Some [1]) _
           (<[key_name mls := JString (js "Shorter text.")]> ∅)
           (JString (js "Shorter text."))).
  - reflexivity.
  - reflexivity.
  - reflexivity.
  - reflexivity.
  - intros id [= <-]. apply (bool_decide_unpack _). vm_compute. exact I.
Defined.

(** ** Submitting *)

(** X8.  A submit the schema rejects still clears the displayed output and
    the previous error before it shows the validation message; the
    selection, the log and the form are kept, no call is sent and the page
    is not busy afterwards. *)
Theorem rejected_submit_clears_output (s : AppState) :
  isBusy s = false ->
  schema_ok (form s) = false ->
  output (dispatch s ClickGenerate) = None /\
  error (dispatch s ClickGenerate) = Some validation_message /\
  selectedHistoryId (dispatch s ClickGenerate) = selectedHistoryId s /\
  history (dispatch s ClickGenerate) = history s /\
  form (dispatch s ClickGenerate) = form s /\
  inflight (dispatch s ClickGenerate) = inflight s /\
  isBusy (dispatch s ClickGenerate) = false.
Proof.
  intros Hb Hbad. simpl. rewrite Hb. unfold generate.
  rewrite (safeParse_None _ Hbad).
  unfold isBusy in *. apply orb_false_iff in Hb. destruct Hb as [_ Hk].
  repeat split. exact Hk.
Qed.

Lemma rejected_submit_clears_output_witness :
  output (dispatch sample_page ClickGenerate) = None /\
  selectedHistoryId (dispatch sample_page ClickGenerate) = Some [1].
Proof.
  assert (Hb : isBusy sample_page = false) by reflexivity.
  assert (Hbad : schema_ok (form sample_page) = false) by reflexivity.
  destruct (rejected_submit_clears_output sample_page Hb Hbad)
    as (H1 & _ & H2 & _).
  split; [exact H1|exact H2].
Defined.

(** X9.  A generation whose call fails, by a rejected promise or by a text
    that does not parse, ends with "OpenAI Error: " and the message caught;
    no output is displayed, the log and the selection are what they were,
    and loading is over with no call left in flight from it. *)
Theorem generate_failure (s : AppState) (c : Completion) (p : Platform)
    (message : jsstring) :
  schema_ok (form s) = true ->
  parse_content c = inl message ->
  error (dispatch (generate s) (Settled (List.length (inflight s)) c p))
  = Some (js "OpenAI Error: " ++ message) /\
  output (dispatch (generate s) (Settled (List.length (inflight s)) c p))
  = None /\
  history (dispatch (generate s) (Settled (List.length (inflight s)) c p))
  = history s /\
  selectedHistoryId
    (dispatch (generate s) (Settled (List.length (inflight s)) c p))
  = selectedHistoryId s /\
  loading (dispatch (generate s) (Settled (List.length (inflight s)) c p))
  = false /\
  inflight (dispatch (generate s) (Settled (List.length (inflight s)) c p))
  = inflight s.
Proof.
  intros Hok Hc. rewrite (dispatch_generate_settled s c p Hok).
  unfold generate_settled. rewrite Hc. repeat split.
Qed.

Lemma generate_failure_witness :
  error (dispatch (generate condo_page)
           (Settled 0 (Rejected (js "429 quota exceeded")) sample_platform))
  = Some (js "OpenAI Error: " ++ js "429 quota exceeded").
Proof.
  assert (Hok : schema_ok (form condo_page) = true) by (vm_compute; reflexivity).
  apply (generate_failure condo_page (Rejected (js "429 quota exceeded"))
           sample_platform (js "429 quota exceeded") Hok).
  reflexivity.
Defined.

Lemma rewrite_settled_success (field : OutputKey) (selected : option jsstring)
    (c : Completion) (json : JObject) (v : JValue) (s : AppState) :
  parse_content c = inr json -> json !! key_name field = Some v ->
  truthy v = true ->
  rewrite_settled field selected c s
  = setRewriteLoadingKey None (apply_rewrite field selected v s).
Proof.
  intros Hc Hv Ht. unfold rewrite_settled. rewrite Hc, Hv, Ht. reflexivity.
Qed.

Lemma apply_rewrite_output (field : OutputKey) (selected : option jsstring)
    (v : JValue) (s : AppState) :
  output (apply_rewrite field selected v s)
  = match output s with
    | Some o => Some (<[key_name field := v]> o)
    | None => None
    end.
Proof.
  unfold apply_rewrite.
  destruct (truthy_opt selected); cbn [output setHistory setOutput];
    destruct (output s); reflexivity.
Qed.

Lemma apply_rewrite_history (field : OutputKey) (selected : option jsstring)
    (v : JValue) (s : AppState) :
  history (apply_rewrite field selected v s)
  = if truthy_opt selected
    then List.map (fun h => if decide (Some (item_id h) = selected)
                            then with_output field v h else h) (history s)
    else history s.
Proof. unfold apply_rewrite. destruct (truthy_opt selected); reflexivity. Qed.

Lemma apply_rewrite_frame (field : OutputKey) (selected : option jsstring)
    (v : JValue) (s : AppState) :
  selectedHistoryId (apply_rewrite field selected v s) = selectedHistoryId s /\
  form (apply_rewrite field selected v s) = form s /\
  inflight (apply_rewrite field selected v s) = inflight s /\
  loading (apply_rewrite field selected v s) = loading s.
Proof. unfold apply_rewrite. destruct (truthy_opt selected); repeat split. Qed.

(** A click on an enabled rewrite button whose field has a text. *)
Lemma dispatch_rewrite_accepted (s : AppState) (b : RewriteButton)
    (o : ListingOutputs) (current : JValue) :
  output s = Some o ->
  o !! key_name (button_field b) = Some current ->
  truthy current = true ->
  rewrite_disabled (button_field b) s = false ->
  dispatch s (ClickRewrite b)
  = s |> setRewriteLoadingKey
           (Some (key_name (button_field b) ++ js ":" ++ button_instruction b))
      |> setError None
      |> send (RewriteCall
                 (rewrite_request (button_field b) (button_instruction b) current)
                 (button_field b) (selectedHistoryId s)).
Proof.
  intros Ho Hcur Ht Hd. cbn [dispatch]. rewrite Ho, Hd.
  unfold rewriteSection. rewrite Ho, Hcur, Ht. reflexivity.
Qed.

Lemma dispatch_settled_rewrite (s : AppState) (n : nat) (c : Completion)
    (p : Platform) (r : ChatRequest) (field : OutputKey)
    (selected : option jsstring) :
  nth_error (inflight s) n = Some (RewriteCall r field selected) ->
  dispatch s (Settled n c p) = rewrite_settled field selected c (settle n s).
Proof. intros H. cbn [dispatch]. rewrite H. reflexivity. Qed.

Lemma dispatch_row (s : AppState) (i : nat) (item : HistoryItem) :
  nth_error (history s) i = Some item ->
  dispatch s (ClickRow i) = loadFromHistory item s.
Proof. intros H. cbn [dispatch]. rewrite H. reflexivity. Qed.

(** X7.  An answer that arrives after the user has opened another entry:
    the rewrite was started on a page showing one entry, then the row of a
    different entry [item] was clicked, then the call settled with a text
    [v].  The text is written into the output now displayed, which is
    [item]'s, while [item] in the log is left as it was: the page shows
    [item] selected with a [field] text its logged outputs do not have. *)
Theorem rewrite_answer_after_row_change (s : AppState) (b : RewriteButton)
    (o : ListingOutputs) (current : JValue) (j : nat) (item : HistoryItem)
    (c : Completion) (json : JObject) (v : JValue) (p : Platform) :
  output s = Some o ->
  o !! key_name (button_field b) = Some current ->
  truthy current = true ->
  rewrite_disabled (button_field b) s = false ->
  nth_error (history s) j = Some item ->
  Some (item_id item) <> selectedHistoryId s ->
  parse_content c = inr json ->
  json !! key_name (button_field b) = Some v ->
  truthy v = true ->
  output (run s [ClickRewrite b; ClickRow j;
                 Settled (List.length (inflight s)) c p])
  = Some (<[key_name (button_field b) := v]> (item_outputs item)) /\
  selectedHistoryId (run s [ClickRewrite b; ClickRow j;
                            Settled (List.length (inflight s)) c p])
  = Some (item_id item) /\
  nth_error (history (run s [ClickRewrite b; ClickRow j;
                             Settled (List.length (inflight s)) c p])) j
  = Some item /\
  form (run s [ClickRewrite b; ClickRow j;
               Settled (List.length (inflight s)) c p])
  = item_form item.
Proof.
  intros Ho Hcur Ht Hd Hj Hother Hc Hv Htv.
  unfold run. cbn [fold_left].
  rewrite (dispatch_rewrite_accepted s b o current Ho Hcur Ht Hd).
  set (r := rewrite_request _ _ _).
  set (s1 := send (RewriteCall r (button_field b) (selectedHistoryId s)) _).
  rewrite (dispatch_row s1 j item Hj).
  set (s2 := loadFromHistory item s1).
  assert (Hn : nth_error (inflight s2) (List.length (inflight s))
               = Some (RewriteCall r (button_field b) (selectedHistoryId s))).
  { change (inflight s2) with (inflight s ++
      [RewriteCall r (button_field b) (selectedHistoryId s)]).
    rewrite nth_error_app2, Nat.sub_diag by lia. reflexivity. }
  rewrite (dispatch_settled_rewrite s2 _ c p _ _ _ Hn).
  rewrite (rewrite_settled_success _ _ c json v _ Hc Hv Htv).
  cbn [output history selectedHistoryId form setRewriteLoadingKey].
  rewrite apply_rewrite_output, apply_rewrite_history.
  destruct (apply_rewrite_frame (button_field b) (selectedHistoryId s) v
              (settle (List.length (inflight s)) s2)) as (-> & -> & _).
  split; [reflexivity|]. split; [reflexivity|]. split; [|reflexivity].
  change (history (settle (List.length (inflight s)) s2)) with (history s).
  destruct (truthy_opt (selectedHistoryId s)); [|exact Hj].
  rewrite nth_error_map, Hj. cbn [option_map].
  rewrite decide_False by exact Hother. reflexivity.
Qed.

(** On [sample_page] (entry 1 selected): rewrite [mls], open entry 2, then
    the answer arrives. *)
Lemma rewrite_answer_after_row_change_witness :
  nth_error
    (history (run sample_page
                [ClickRewrite MlsShorter; ClickRow 2;
                 Settled (List.length (inflight sample_page))
                   (Resolved (Some (js "{...}"))
                      (Parsed (<[key_name mls := JString (js "Short.")]> ∅)))
                   sample_platform])) 2
  = Some (sample_item 2).
Proof.
  apply (rewrite_answer_after_row_change sample_page MlsShorter sample_outputs
           (JString (js "Bright two-bedroom condo.")) 2 (sample_item 2) _
           (<[key_name mls := JString (js "Short.")]> ∅)
           (JString (js "Short.")) sample_platform);
    try reflexivity.
  discriminate.
Defined.

(** ** The rewrite buttons *)

Lemma key_prefix (f g : OutputKey) (instruction : jsstring) :
  startsWith (key_name f ++ js ":" ++ instruction) (key_name g ++ js ":") = true
  <-> g = f.
Proof.
  split.
  - destruct f, g; intros H; try reflexivity; vm_compute in H; discriminate H.
  - intros ->. rewrite app_assoc. apply startsWith_app.
Qed.

(** X13.  After a rewrite is started by a click (no generation loading),
    the page is busy, the rewrite buttons of the same field are disabled and
    those of every other field are not.  So a click on a button of another
    field whose text is not empty sends a second call while the first is in
    flight. *)
Theorem rewrite_click_disables_its_field (s : AppState) (b b' : RewriteButton)
    (o : ListingOutputs) (current : JValue) :
  loading s = false ->
  output s = Some o ->
  o !! key_name (button_field b) = Some current ->
  truthy current = true ->
  rewrite_disabled (button_field b) s = false ->
  isBusy (dispatch s (ClickRewrite b)) = true /\
  dispatch (dispatch s (ClickRewrite b)) ClickGenerate
  = dispatch s (ClickRewrite b) /\
  (rewrite_disabled (button_field b') (dispatch s (ClickRewrite b)) = true
   <-> button_field b' = button_field b) /\
  (button_field b' = button_field b ->
   run s [ClickRewrite b; ClickRewrite b'] = run s [ClickRewrite b]) /\
  (button_field b' <> button_field b ->
   truthy_prop (o !! key_name (button_field b')) = true ->
   List.length (inflight (run s [ClickRewrite b; ClickRewrite b']))
   = (List.length (inflight s) + 2)%nat).
Proof.
  intros Hl Ho Hcur Ht Hd.
  unfold run. cbn [fold_left].
  rewrite (dispatch_rewrite_accepted s b o current Ho Hcur Ht Hd).
  set (r := rewrite_request _ _ _).
  set (call := RewriteCall r (button_field b) (selectedHistoryId s)).
  set (key := key_name (button_field b) ++ js ":" ++ button_instruction b).
  set (s1 := send call _).
  assert (Hk1 : rewriteLoadingKey s1 = Some key) by reflexivity.
  assert (Hl1 : loading s1 = false) by exact Hl.
  assert (Ho1 : output s1 = Some o) by exact Ho.
  assert (Hbusy : isBusy s1 = true).
  { unfold isBusy. rewrite Hk1, Hl1. unfold key.
    destruct (button_field b); reflexivity. }
  assert (Hdis : rewrite_disabled (button_field b') s1 = true
                 <-> button_field b' = button_field b).
  { unfold rewrite_disabled. rewrite Hk1, Hl1, orb_false_r.
    apply key_prefix. }
  split; [exact Hbusy|]. split; [cbn [dispatch]; rewrite Hbusy; reflexivity|].
  split; [exact Hdis|]. split.
  - intros Hsame. cbn [dispatch]. rewrite Ho1.
    rewrite (proj2 Hdis Hsame). reflexivity.
  - intros Hne Htext.
    destruct (o !! key_name (button_field b')) as [cur'|] eqn:Hcur';
      [|discriminate Htext].
    assert (Hd' : rewrite_disabled (button_field b') s1 = false).
    { destruct (rewrite_disabled (button_field b') s1) eqn:E; [|reflexivity].
      exfalso. apply Hne, Hdis. reflexivity. }
    rewrite (dispatch_rewrite_accepted s1 b' o cur' Ho1 Hcur' Htext Hd').
    cbn [inflight send setError setRewriteLoadingKey].
    change (inflight s1) with (inflight s ++ [call]).
    rewrite !length_app. simpl. lia.
Qed.

Lemma rewrite_click_disables_its_field_witness :
  List.length (inflight (run sample_page
                           [ClickRewrite MlsShorter; ClickRewrite ZillowShorter]))
  = (List.length (inflight sample_page) + 2)%nat.
Proof.
  apply (rewrite_click_disables_its_field sample_page MlsShorter ZillowShorter
           sample_outputs (JString (js "Bright two-bedroom condo.")));
    try reflexivity.
  discriminate.
Defined.

(** ** What the log records *)

Lemma run_app (s : AppState) (es1 es2 : list Event) :
  run s (es1 ++ es2) = run (run s es1) es2.
Proof. unfold run. apply fold_left_app. Qed.

Lemma run_edits (edits : list Edit) (s : AppState) :
  run s (edit_events edits) = setForm (edited edits) s.
Proof.
  revert s. induction edits as [|e edits IH]; intros s.
  - destruct s; reflexivity.
  - unfold edit_events. cbn [List.map run fold_left].
    fold (edit_events edits). fold (run (dispatch s (Change (fst e) (snd e)))
                                      (edit_events edits)).
    rewrite IH. destruct s; reflexivity.
Qed.

Lemma dispatch_settled_generate (s : AppState) (n : nat) (c : Completion)
    (p : Platform) (r : ChatRequest) (data : ListingFormState) :
  nth_error (inflight s) n = Some (GenerateCall r data) ->
  dispatch s (Settled n c p) = generate_settled data c p (settle n s).
Proof. intros H. cbn [dispatch]. rewrite H. reflexivity. Qed.

(** X14.  The entry records the form that was submitted: when the form is
    edited while the generation is pending, the entry added by the answer
    holds the form as validated at the click, and the page keeps the edited
    form; the answer becomes the output and the new entry is the first of
    the log and the selection. *)
Theorem entry_keeps_submitted_form (s : AppState) (edits : list Edit)
    (c : Completion) (json : JObject) (p : Platform) :
  schema_ok (form s) = true ->
  parse_content c = inr json ->
  hd_error (history (run (generate s)
                       (edit_events edits
                        ++ [Settled (List.length (inflight s)) c p])))
  = Some (new_item (form s) json p) /\
  form (run (generate s)
          (edit_events edits ++ [Settled (List.length (inflight s)) c p]))
  = edited edits (form s) /\
  output (run (generate s)
            (edit_events edits ++ [Settled (List.length (inflight s)) c p]))
  = Some json /\
  selectedHistoryId
    (run (generate s)
       (edit_events edits ++ [Settled (List.length (inflight s)) c p]))
  = Some (new_id p).
Proof.
  intros Hok Hc. rewrite run_app, run_edits.
  unfold run. cbn [fold_left].
  unfold generate. rewrite (safeParse_Some _ Hok).
  set (r := generate_request (form s)).
  set (s1 := setForm _ _).
  assert (Hn : nth_error (inflight s1) (List.length (inflight s))
               = Some (GenerateCall r (form s))).
  { change (inflight s1) with (inflight s ++ [GenerateCall r (form s)]).
    rewrite nth_error_app2, Nat.sub_diag by lia. reflexivity. }
  rewrite (dispatch_settled_generate s1 _ c p r (form s) Hn).
  unfold generate_settled. rewrite Hc.
  cbn [history form output selectedHistoryId setLoading addToHistory
       setSelectedHistoryId setHistory setOutput].
  rewrite prepend_bounded_firstn. change HISTORY_LIMIT with (S 49).
  rewrite firstn_cons. repeat split.
Qed.

Lemma entry_keeps_submitted_form_witness :
  hd_error (history (run (generate condo_page)
                       (edit_events [(NPropertyType, js "House"); (NTone, js "hype")]
                        ++ [Settled (List.length (inflight condo_page))
                              (Resolved (Some (js "{...}")) (Parsed sample_outputs))
                              sample_platform])))
  = Some (new_item (form condo_page) sample_outputs sample_platform).
Proof.
  assert (Hok : schema_ok (form condo_page) = true) by (vm_compute; reflexivity).
  apply (entry_keeps_submitted_form condo_page
           [(NPropertyType, js "House"); (NTone, js "hype")]
           (Resolved (Some (js "{...}")) (Parsed sample_outputs))
           sample_outputs sample_platform Hok).
  reflexivity.
Defined.

(** ** Forms the inputs can produce *)

Lemma options_are_values :
  (forall v, v ∈ tone_options -> v ∈ tone_values) /\
  (forall v, v ∈ length_options -> v ∈ length_values) /\
  (forall v, v ∈ language_options -> v ∈ language_values).
Proof.
  repeat split; intros v Hv;
    repeat (apply elem_of_cons in Hv; destruct Hv as [-> | Hv];
            [apply (bool_decide_unpack _); vm_compute; exact I|]);
    apply elem_of_nil in Hv; contradiction.
Qed.

Lemma with_field_enums_ok (name : FieldName) (value : jsstring)
    (f : ListingFormState) :
  widget_event (Change name value) -> enums_ok f ->
  enums_ok (with_field name value f).
Proof.
  destruct options_are_values as (Ht & Hl & Hg).
  intros Hw (H1 & H2 & H3). unfold enums_ok.
  destruct name; cbn [with_field tone length_ language widget_event] in *;
    auto.
Qed.

Lemma Forall_firstn_skipn {A} (P : A -> Prop) (n : nat) (l : list A) :
  Forall P l -> Forall P (firstn n l ++ skipn (S n) l).
Proof.
  intros H. apply Forall_app. split; [apply Forall_take|apply Forall_drop]; exact H.
Qed.

Lemma Forall_map_same_form (g : HistoryItem -> HistoryItem)
    (l : list HistoryItem) :
  (forall h, item_form (g h) = item_form h) ->
  Forall (fun h => enums_ok (item_form h)) l ->
  Forall (fun h => enums_ok (item_form h)) (List.map g l).
Proof.
  intros Hg H. induction H as [|h l Hh Hl IH]; simpl; constructor.
  - rewrite Hg. exact Hh.
  - exact IH.
Qed.

Lemma Forall_filter_bool {A} (P : A -> Prop) (f : A -> bool) (l : list A) :
  Forall P l -> Forall P (List.filter f l).
Proof.
  rewrite !Forall_forall. intros H x Hx.
  apply elem_of_filter_bool in Hx. apply H. tauto.
Qed.

Lemma safeParse_enums_ok (f data : ListingFormState) :
  safeParse f = Some data -> enums_ok data.
Proof.
  unfold safeParse. destruct (schema_ok f) eqn:E; [|discriminate].
  intros [= <-]. apply schema_ok_spec in E. unfold enums_ok. tauto.
Qed.

Lemma dispatch_forms_ok (s : AppState) (e : Event) :
  widget_event e -> forms_ok s -> forms_ok (dispatch s e).
Proof.
  unfold forms_ok. intros Hw (Hf & Hh & Hi). destruct e; cbn [dispatch].
  - split; [|split]; [|exact Hh|exact Hi].
    apply with_field_enums_ok; assumption.
  - destruct (isBusy s); [tauto|]. unfold generate.
    destruct (safeParse (form s)) as [data|] eqn:Hp; [|tauto].
    split; [exact Hf|]. split; [exact Hh|].
    cbn [inflight send setError setOutput setLoading].
    apply Forall_app. split; [exact Hi|].
    constructor; [|constructor]. apply (safeParse_enums_ok _ _ Hp).
  - destruct (output s) as [o|] eqn:Ho; [|tauto].
    destruct (rewrite_disabled _ s); [tauto|].
    unfold rewriteSection. rewrite Ho.
    destruct (o !! _) as [v|]; [|tauto].
    destruct (truthy v); [|tauto].
    split; [exact Hf|]. split; [exact Hh|].
    cbn [negb inflight send setError setRewriteLoadingKey].
    apply Forall_app. split; [exact Hi|]. constructor; [exact I|constructor].
  - destruct (nth_error (history s) i) as [item|] eqn:Hn; [|tauto].
    split; [|split]; [|exact Hh|exact Hi].
    cbn. rewrite Forall_forall in Hh. apply Hh.
    eapply nth_error_elem_of, Hn.
  - destruct (nth_error (history s) i) as [item|]; [|tauto].
    split; [exact Hf|]. split; [|exact Hi].
    cbn. apply Forall_map_same_form; [|exact Hh].
    intros h. destruct (decide _); reflexivity.
  - destruct (nth_error (history s) i) as [item|]; [|tauto].
    unfold deleteFromHistory.
    destruct (decide _); cbn; (split; [exact Hf|]; split; [|exact Hi]);
      apply Forall_filter_bool; exact Hh.
  - unfold copy_settled. destruct ok; tauto.
  - tauto.
  - destruct (nth_error (inflight s) n) as [[r data|r field selected]|] eqn:Hn;
      [| |tauto].
    + assert (Hd : enums_ok data).
      { rewrite Forall_forall in Hi.
        apply (Hi (GenerateCall r data)). eapply nth_error_elem_of, Hn. }
      unfold generate_settled.
      destruct (parse_content c) as [m|json]; cbn;
        (split; [exact Hf|]; split; [|apply Forall_firstn_skipn; exact Hi]);
        [exact Hh|].
      rewrite prepend_bounded_firstn. apply Forall_take.
      constructor; [exact Hd|exact Hh].
    + assert (Hi' : Forall call_enums_ok
                      (firstn n (inflight s) ++ skipn (S n) (inflight s)))
        by (apply Forall_firstn_skipn; exact Hi).
      unfold rewrite_settled, apply_rewrite.
      destruct (parse_content c) as [m|json]; [cbn; tauto|].
      destruct (json !! key_name field) as [v|]; [|cbn; tauto].
      destruct (truthy v); [|cbn; tauto].
      destruct (truthy_opt selected); cbn; [|tauto].
      split; [exact Hf|]. split; [|exact Hi'].
      apply Forall_map_same_form; [|exact Hh].
      intros h. destruct (decide _); reflexivity.
Qed.

(** X10.  What the inputs constrain: on a page whose stored entries (if
    any) have enumerated tone, length and language, and whose selects only
    ever deliver their option values, the form always has enumerated tone,
    length and language, and so has every entry of the log.  The schema
    then accepts the form exactly when its property type is not empty and
    its highlights have three characters or more. *)
Theorem widget_forms_validate (stored : Stored) (es : list Event) :
  stored_forms_ok stored ->
  Forall widget_event es ->
  enums_ok (form (run (load_history stored initial) es)) /\
  Forall (fun h => enums_ok (item_form h))
    (history (run (load_history stored initial) es)) /\
  (schema_ok (form (run (load_history stored initial) es)) = true <->
   propertyType (form (run (load_history stored initial) es)) <> [] /\
   (3 <= List.length (highlights (form (run (load_history stored initial) es))))%nat).
Proof.
  intros Hstored Hes.
  assert (H : forms_ok (run (load_history stored initial) es)).
  { assert (H0 : forms_ok (load_history stored initial)).
    { unfold forms_ok. split; [|split].
      - destruct stored; cbn; repeat split;
          apply (bool_decide_unpack _); vm_compute; exact I.
      - destruct stored; cbn; [constructor|constructor|exact Hstored].
      - destruct stored; constructor. }
    revert H0. generalize (load_history stored initial).
    induction Hes as [|e es He Hes IH]; intros s0 H0; [exact H0|].
    cbn [run fold_left]. apply IH, dispatch_forms_ok; assumption. }
  destruct H as (Hf & Hh & _). split; [exact Hf|]. split; [exact Hh|].
  rewrite schema_ok_spec. unfold enums_ok in Hf. tauto.
Qed.

Lemma widget_forms_validate_witness :
  schema_ok (form (run (load_history (Items (sample_log 3)) initial)
                     [Change NTone (js "hype"); ClickRow 1;
                      Change NHighlights (js "sea")])) = true.
Proof.
  apply (widget_forms_validate (Items (sample_log 3))
           [Change NTone (js "hype"); ClickRow 1; Change NHighlights (js "sea")]).
  - repeat constructor; apply (bool_decide_unpack _); vm_compute; exact I.
  - repeat constructor; apply (bool_decide_unpack _); vm_compute; exact I.
  - vm_compute. split; [discriminate|lia].
Defined.

(** ** How [trim] acts on the templates *)

Lemma trim_trimEnd (s : jsstring) : trim s = trimEnd (trimStart s).
Proof. reflexivity. Qed.

Lemma trimStart_nonspace (c : N) (s : jsstring) :
  is_space c = false -> trimStart (c :: s) = c :: s.
Proof. intros H. simpl. rewrite H. reflexivity. Qed.

Lemma trimStart_app_nonspace (x : jsstring) (c : N) (y : jsstring) :
  is_space c = false -> trimStart (x ++ c :: y) = trimStart x ++ c :: y.
Proof.
  intros H. induction x as [|a x IH]; cbn [app trimStart].
  - rewrite H. reflexivity.
  - destruct (is_space a); [exact IH|reflexivity].
Qed.

Lemma trimStart_spaces_app (w z : jsstring) :
  Forall (fun c => is_space c = true) w -> trimStart (w ++ z) = trimStart z.
Proof.
  induction 1 as [|c w Hc Hw IH]; [reflexivity|].
  cbn [app trimStart]. rewrite Hc. exact IH.
Qed.

Lemma trimStart_head (z : jsstring) :
  trimStart z = [] \/ exists c t, trimStart z = c :: t /\ is_space c = false.
Proof.
  induction z as [|a z IH]; [left; reflexivity|].
  cbn [trimStart]. destruct (is_space a) eqn:E; [exact IH|].
  right. exists a, z. split; [reflexivity|exact E].
Qed.

Lemma trimEnd_cons_nonspace (c : N) (s : jsstring) :
  is_space c = false -> trimEnd (c :: s) = c :: trimEnd s.
Proof.
  intros H. unfold trimEnd. cbn [rev].
  rewrite (trimStart_app_nonspace (rev s) c [] H), rev_app_distr.
  reflexivity.
Qed.

Lemma trimEnd_snoc_nonspace (s : jsstring) (c : N) :
  is_space c = false -> trimEnd (s ++ [c]) = s ++ [c].
Proof.
  intros H. unfold trimEnd. rewrite rev_app_distr. cbn [rev app].
  rewrite (trimStart_nonspace c (rev s) H). cbn [rev].
  rewrite rev_involutive. reflexivity.
Qed.

Lemma trimEnd_app_spaces (s w : jsstring) :
  Forall (fun c => is_space c = true) w -> trimEnd (s ++ w) = trimEnd s.
Proof.
  intros H. unfold trimEnd. rewrite rev_app_distr.
  rewrite trimStart_spaces_app; [reflexivity|].
  apply Forall_rev. exact H.
Qed.

Lemma trimEnd_last (s : jsstring) :
  trimEnd s = [] \/ exists t c, trimEnd s = t ++ [c] /\ is_space c = false.
Proof.
  unfold trimEnd. destruct (trimStart_head (rev s)) as [-> | (c & t & -> & H)].
  - left. reflexivity.
  - right. exists (rev t), c. split; [reflexivity|exact H].
Qed.

(** What [trimEnd] removes is white space. *)
Lemma trimEnd_suffix (s : jsstring) :
  exists w, s = trimEnd s ++ w /\ Forall (fun c => is_space c = true) w.
Proof.
  assert (H : forall z, exists w, z = w ++ trimStart z /\
                                  Forall (fun c => is_space c = true) w).
  { induction z as [|a z (w & Hz & Hw)]; [exists []; split; [reflexivity|constructor]|].
    cbn [trimStart]. destruct (is_space a) eqn:E.
    - exists (a :: w). split; [cbn; f_equal; exact Hz|constructor; assumption].
    - exists []. split; [reflexivity|constructor]. }
  destruct (H (rev s)) as (w & Hz & Hw). exists (rev w). split.
  - unfold trimEnd. rewrite <- rev_app_distr, <- Hz, rev_involutive. reflexivity.
  - apply Forall_rev. exact Hw.
Qed.

(** A template [`\n` + body + `\n`] whose body starts with a character that
    is not white space: [trim] strips the first line feed and the white
    space at the end of the body. *)
Lemma trim_template_body (c : N) (body : jsstring) :
  is_space c = false ->
  trim (nl ++ (c :: body) ++ nl) = c :: trimEnd body.
Proof.
  intros H. rewrite trim_trimEnd.
  change (nl ++ (c :: body) ++ nl) with (10 :: c :: body ++ nl).
  cbn [trimStart]. change (is_space 10) with true. cbn iota.
  rewrite H. rewrite (trimEnd_cons_nonspace c _ H). f_equal.
  apply trimEnd_app_spaces. repeat constructor.
Qed.

Lemma join_lines_cons (l : jsstring) (ls : list jsstring) :
  ls <> [] -> join_lines (l :: ls) = l ++ nl ++ join_lines ls.
Proof. destruct ls; [contradiction|reflexivity]. Qed.

Lemma join_lines_snoc (ls : list jsstring) (d : jsstring) :
  ls <> [] -> join_lines (ls ++ [d]) = join_lines ls ++ nl ++ d.
Proof.
  induction ls as [|l ls IH]; [contradiction|]. intros _.
  destruct ls as [|l' ls].
  - reflexivity.
  - change ((l :: l' :: ls) ++ [d]) with (l :: (l' :: ls) ++ [d]).
    rewrite join_lines_cons by discriminate.
    rewrite IH by discriminate.
    rewrite (join_lines_cons l (l' :: ls)) by discriminate.
    rewrite <- !app_assoc. reflexivity.
Qed.

Lemma prompt_lines_head :
  exists rest, join_lines prompt_lines = 89 :: rest.
Proof. eexists. vm_compute. reflexivity. Qed.

Lemma details_head (data : ListingFormState) :
  exists rest, join_lines (details_lines data) = 80 :: rest.
Proof.
  unfold details_lines. rewrite join_lines_cons by discriminate.
  assert (H : exists r, js "Property Type: " = 80 :: r)
    by (eexists; vm_compute; reflexivity).
  destruct H as (r & ->). eexists. reflexivity.
Qed.

Lemma details_trimEnd (data : ListingFormState) :
  details data = trimEnd (join_lines (details_lines data)).
Proof.
  change (details data)
    with (trim (nl ++ join_lines (details_lines data) ++ nl)).
  destruct (details_head data) as (rest & ->).
  rewrite trim_template_body by reflexivity.
  rewrite trimEnd_cons_nonspace by reflexivity. reflexivity.
Qed.

(** X11.  The generation prompt is the fixed instruction text, a line feed,
    and the details; nothing of the form comes before or inside the
    instructions.  The details are the eleven labelled lines with the white
    space at their very end removed, which is white space ending the
    highlights (and the space after the label when the highlights are
    blank). *)
Theorem prompt_structure (data : ListingFormState) :
  prompt data = join_lines prompt_lines ++ nl ++ details data /\
  startsWith (prompt data) (join_lines prompt_lines ++ nl) = true /\
  details data = trimEnd (join_lines (details_lines data)) /\
  exists w, join_lines (details_lines data) = details data ++ w /\
            Forall (fun c => is_space c = true) w.
Proof.
  assert (Hd := details_trimEnd data).
  assert (Hp : prompt data = join_lines prompt_lines ++ nl ++ details data).
  { unfold prompt. rewrite join_lines_snoc
      by (unfold prompt_lines; discriminate).
    destruct prompt_lines_head as (rest & ->).
    rewrite <- !app_assoc. cbn [app].
    replace (89 :: rest ++ nl ++ details data ++ nl)
      with ((89 :: rest ++ nl ++ details data) ++ nl)
      by (cbn [app]; rewrite <- !app_assoc; reflexivity).
    rewrite trim_template_body by reflexivity. f_equal.
    destruct (details_head data) as (drest & Hh).
    rewrite Hd, Hh. rewrite trimEnd_cons_nonspace by reflexivity.
    destruct (trimEnd_last drest) as [E | (t & c & E & Hc)].
    - rewrite E.
      change (rest ++ nl ++ [80]) with (rest ++ [10; 80]).
      replace (rest ++ [10; 80]) with ((rest ++ [10]) ++ [80])
        by (rewrite <- app_assoc; reflexivity).
      apply trimEnd_snoc_nonspace. reflexivity.
    - rewrite E.
      replace (rest ++ nl ++ 80 :: t ++ [c])
        with ((rest ++ nl ++ 80 :: t) ++ [c])
        by (rewrite <- !app_assoc; reflexivity).
      apply trimEnd_snoc_nonspace. exact Hc. }
  split; [exact Hp|]. split; [|split; [exact Hd|]].
  - rewrite Hp, app_assoc. apply startsWith_app.
  - rewrite Hd. apply trimEnd_suffix.
Qed.

Lemma rewrite_lines_split (field : OutputKey) (instruction : jsstring)
    (current : JValue) :
  exists body,
    join_lines (rewrite_lines field instruction current)
    = 89 :: body ++ dq ++ dq ++ dq ++ text_of current ++ dq ++ dq ++ dq.
Proof.
  unfold rewrite_lines. rewrite join_lines_cons by discriminate.
  assert (H : exists r, js "You are a senior real estate copywriter." = 89 :: r)
    by (eexists; vm_compute; reflexivity).
  destruct H as (r & ->).
  repeat (rewrite join_lines_cons by discriminate).
  cbn [join_lines].
  exists (r ++ nl ++
          (js "Rewrite the existing " ++ key_name field
           ++ js " text below according to the instruction.") ++ nl ++
          [] ++ nl ++ (js "Instruction: " ++ instruction) ++ nl ++ [] ++ nl ++
          (js "Return JSON with ONLY this key: " ++ dq ++ key_name field
           ++ dq ++ js ".") ++ nl ++ [] ++ nl ++ js "Existing text:" ++ nl).
  cbn [app]. f_equal. rewrite <- !app_assoc. reflexivity.
Qed.

(** X12.  The rewrite prompt is its template, line for line: [trim] only
    removes the line feeds around it.  The current text stands between the
    two triple quotes that end the prompt, with whatever white space it
    begins or ends with, and the instruction and the field name are spliced
    in unchanged. *)
Theorem rewrite_prompt_verbatim (field : OutputKey) (instruction : jsstring)
    (current : JValue) :
  rewrite_prompt field instruction current
  = join_lines (rewrite_lines field instruction current) /\
  exists body,
    rewrite_prompt field instruction current
    = 89 :: body ++ dq ++ dq ++ dq ++ text_of current ++ dq ++ dq ++ dq.
Proof.
  destruct (rewrite_lines_split field instruction current) as (body & Hj).
  assert (H : rewrite_prompt field instruction current
              = join_lines (rewrite_lines field instruction current)).
  { change (rewrite_prompt field instruction current)
      with (trim (nl ++ join_lines (rewrite_lines field instruction current)
                  ++ nl)).
    rewrite Hj. rewrite trim_template_body by reflexivity. f_equal.
    replace (body ++ dq ++ dq ++ dq ++ text_of current ++ dq ++ dq ++ dq)
      with ((body ++ dq ++ dq ++ dq ++ text_of current ++ dq ++ dq) ++ [34])
      by (rewrite <- !app_assoc; reflexivity).
    apply trimEnd_snoc_nonspace. reflexivity. }
  split; [exact H|]. exists body. rewrite H. exact Hj.
Qed.

(** ** Rewriting a selected entry *)

(** X16.  Opening an entry and rewriting one of its fields, with nothing in
    between: the new text is in the displayed output and, when the entry's
    id is not the empty string, in the same field of that entry in the log,
    so the display and the log agree.  An entry whose id is the empty
    string is displayed with the new text while the log is left as it
    was. *)
Theorem rewrite_selected_entry (s : AppState) (j : nat) (item : HistoryItem)
    (b : RewriteButton) (current : JValue) (c : Completion) (json : JObject)
    (v : JValue) (p : Platform) :
  nth_error (history s) j = Some item ->
  rewrite_disabled (button_field b) s = false ->
  item_outputs item !! key_name (button_field b) = Some current ->
  truthy current = true ->
  parse_content c = inr json ->
  json !! key_name (button_field b) = Some v ->
  truthy v = true ->
  output (run s [ClickRow j; ClickRewrite b;
                 Settled (List.length (inflight s)) c p])
  = Some (<[key_name (button_field b) := v]> (item_outputs item)) /\
  selectedHistoryId (run s [ClickRow j; ClickRewrite b;
                            Settled (List.length (inflight s)) c p])
  = Some (item_id item) /\
  (item_id item <> [] ->
   nth_error (history (run s [ClickRow j; ClickRewrite b;
                              Settled (List.length (inflight s)) c p])) j
   = Some (with_output (button_field b) v item)) /\
  (item_id item = [] ->
   history (run s [ClickRow j; ClickRewrite b;
                   Settled (List.length (inflight s)) c p])
   = history s).
Proof.
  intros Hj Hd Hcur Ht Hc Hv Htv.
  unfold run. cbn [fold_left].
  rewrite (dispatch_row s j item Hj).
  set (s1 := loadFromHistory item s).
  assert (Ho1 : output s1 = Some (item_outputs item)) by reflexivity.
  assert (Hd1 : rewrite_disabled (button_field b) s1 = false) by exact Hd.
  rewrite (dispatch_rewrite_accepted s1 b _ current Ho1 Hcur Ht Hd1).
  set (r := rewrite_request _ _ _).
  set (s2 := send (RewriteCall r (button_field b) (selectedHistoryId s1)) _).
  assert (Hn : nth_error (inflight s2) (List.length (inflight s))
               = Some (RewriteCall r (button_field b) (selectedHistoryId s1))).
  { change (inflight s2) with (inflight s ++
      [RewriteCall r (button_field b) (selectedHistoryId s1)]).
    rewrite nth_error_app2, Nat.sub_diag by lia. reflexivity. }
  rewrite (dispatch_settled_rewrite s2 _ c p _ _ _ Hn).
  rewrite (rewrite_settled_success _ _ c json v _ Hc Hv Htv).
  cbn [output history selectedHistoryId setRewriteLoadingKey].
  rewrite apply_rewrite_output, apply_rewrite_history.
  destruct (apply_rewrite_frame (button_field b) (selectedHistoryId s1) v
              (settle (List.length (inflight s)) s2)) as (-> & _).
  change (selectedHistoryId s1) with (Some (item_id item)).
  change (history (settle (List.length (inflight s)) s2)) with (history s).
  split; [reflexivity|]. split; [reflexivity|]. split.
  - intros Hid. destruct (item_id item) as [|ch rest] eqn:E; [contradiction|].
    cbn [truthy_opt]. rewrite nth_error_map, Hj. cbn [option_map].
    rewrite decide_True by (rewrite E; reflexivity). reflexivity.
  - intros ->. reflexivity.
Qed.

(** Scenario B of the specification on the second row of [sample_page]'s
    log, once that entry has the outputs [sample_outputs]. *)
Lemma rewrite_selected_entry_witness :
  output (run (setHistory (List.map (with_output zillow
                                       (JString (js "Wake up to the ocean."))))
                 sample_page)
            [ClickRow 1; ClickRewrite ZillowShorter;
             Settled 0 (Resolved (Some (js "{...}"))
                          (Parsed (<[key_name zillow := JString (js "Sea.")]> ∅)))
               sample_platform])
  = Some (<[key_name zillow := JString (js "Sea.")]>
            (item_outputs (with_output zillow
                             (JString (js "Wake up to the ocean."))
                             (sample_item 1)))).
Proof.
  apply (rewrite_selected_entry
           (setHistory (List.map (with_output zillow
                                    (JString (js "Wake up to the ocean."))))
              sample_page)
           1 (with_output zillow (JString (js "Wake up to the ocean."))
                (sample_item 1))
           ZillowShorter (JString (js "Wake up to the ocean."))
           (Resolved (Some (js "{...}"))
              (Parsed (<[key_name zillow := JString (js "Sea.")]> ∅)))
           (<[key_name zillow := JString (js "Sea.")]> ∅)
           (JString (js "Sea.")) sample_platform);
    reflexivity.
Defined.

(** ** Opening an entry and generating again *)

Lemma dispatch_generate_accepted (s : AppState) :
  isBusy s = false -> schema_ok (form s) = true ->
  dispatch s ClickGenerate
  = s |> setLoading true |> setOutput (fun _ => None) |> setError None
      |> send (GenerateCall (generate_request (form s)) (form s)).
Proof.
  intros Hb Hok. cbn [dispatch]. rewrite Hb. unfold generate.
  rewrite (safeParse_Some _ Hok). reflexivity.
Qed.

(** X15.  The log restores what was submitted: after a generation has been
    answered, opening the entry it added (the first row) and clicking
    Generate sends a request equal to the one that produced the entry, for
    the same form, and nothing else is in flight from the two. *)
Theorem reopen_and_regenerate (s : AppState) (c : Completion) (json : JObject)
    (p : Platform) :
  schema_ok (form s) = true ->
  truthy_opt (rewriteLoadingKey s) = false ->
  parse_content c = inr json ->
  inflight (generate s)
  = inflight s ++ [GenerateCall (generate_request (form s)) (form s)] /\
  inflight (run (generate s)
              [Settled (List.length (inflight s)) c p; ClickRow 0;
               ClickGenerate])
  = inflight s ++ [GenerateCall (generate_request (form s)) (form s)] /\
  form (run (generate s)
          [Settled (List.length (inflight s)) c p; ClickRow 0; ClickGenerate])
  = form s.
Proof.
  intros Hok Hk Hc.
  assert (H1 : inflight (generate s)
               = inflight s ++ [GenerateCall (generate_request (form s)) (form s)]).
  { unfold generate. rewrite (safeParse_Some _ Hok). reflexivity. }
  split; [exact H1|].
  unfold run. cbn [fold_left].
  rewrite (dispatch_generate_settled s c p Hok).
  unfold generate_settled. rewrite Hc.
  set (s2 := setLoading false _).
  assert (Hrow : nth_error (history s2) 0 = Some (new_item (form s) json p)).
  { unfold s2. cbn [history setLoading addToHistory setSelectedHistoryId
                    setHistory setOutput setError].
    rewrite prepend_bounded_firstn. change HISTORY_LIMIT with (S 49).
    rewrite firstn_cons. reflexivity. }
  rewrite (dispatch_row s2 0 _ Hrow).
  set (s3 := loadFromHistory _ s2).
  assert (Hf3 : form s3 = form s) by reflexivity.
  assert (Hb3 : isBusy s3 = false).
  { unfold isBusy. change (loading s3) with false.
    change (rewriteLoadingKey s3) with (rewriteLoadingKey s). exact Hk. }
  assert (Hok3 : schema_ok (form s3) = true) by (rewrite Hf3; exact Hok).
  rewrite (dispatch_generate_accepted s3 Hb3 Hok3).
  cbn [inflight form send setError setOutput setLoading]. rewrite Hf3.
  split; reflexivity.
Qed.

Lemma reopen_and_regenerate_witness :
  inflight (run (generate condo_page)
              [Settled (List.length (inflight condo_page))
                 (Resolved (Some (js "{...}")) (Parsed sample_outputs))
                 sample_platform;
               ClickRow 0; ClickGenerate])
  = inflight condo_page
    ++ [GenerateCall (generate_request (form condo_page)) (form condo_page)].
Proof.
  assert (Hok : schema_ok (form condo_page) = true) by (vm_compute; reflexivity).
  apply (reopen_and_regenerate condo_page
           (Resolved (Some (js "{...}")) (Parsed sample_outputs))
           sample_outputs sample_platform Hok); reflexivity.
Defined.
